(** * CloudStore: the local content-addressed vault of [CloudStore.py]

    A shallow embedding of the [CloudStorage] class (configuration loading,
    the schema of the table, hashing, upload, download, listing and deletion
    against the embedded SQLite table [files], and the requests to the
    server), of the handlers of the window that call it, and the properties
    that follow from the code. *)

From Stdlib Require Import ZArith Strings.Byte Ascii String List Lia.
From stdpp Require Import base option list gmap strings sorting pretty.
From Equations Require Import Equations.
From Equations.Prop Require Import Logic.

Local Open Scope Z_scope.
Local Open Scope string_scope.

(** ** MD5 ([hashlib.md5], RFC 1321)

    32-bit words are [Z] with the wrap-around written out. *)
Module MD5.

Definition wrap (x : Z) : Z := x mod 2 ^ 32.
Definition add32 (x y : Z) : Z := wrap (x + y).
Definition not32 (x : Z) : Z := Z.lxor x 0xffffffff.
Definition rotl32 (x s : Z) : Z :=
  wrap (Z.lor (Z.shiftl x s) (Z.shiftr x (32 - s))).

Definition F (b c d : Z) : Z := Z.lor (Z.land b c) (Z.land (not32 b) d).
Definition G (b c d : Z) : Z := Z.lor (Z.land b d) (Z.land c (not32 d)).
Definition H (b c d : Z) : Z := Z.lxor b (Z.lxor c d).
Definition I (b c d : Z) : Z := Z.lxor c (Z.lor b (not32 d)).

Definition S_table : list Z :=
  [7; 12; 17; 22; 7; 12; 17; 22; 7; 12; 17; 22; 7; 12; 17; 22;
   5; 9; 14; 20; 5; 9; 14; 20; 5; 9; 14; 20; 5; 9; 14; 20;
   4; 11; 16; 23; 4; 11; 16; 23; 4; 11; 16; 23; 4; 11; 16; 23;
   6; 10; 15; 21; 6; 10; 15; 21; 6; 10; 15; 21; 6; 10; 15; 21].

Definition K_table : list Z :=
  [0xd76aa478; 0xe8c7b756; 0x242070db; 0xc1bdceee;
   0xf57c0faf; 0x4787c62a; 0xa8304613; 0xfd469501;
   0x698098d8; 0x8b44f7af; 0xffff5bb1; 0x895cd7be;
   0x6b901122; 0xfd987193; 0xa679438e; 0x49b40821;
   0xf61e2562; 0xc040b340; 0x265e5a51; 0xe9b6c7aa;
   0xd62f105d; 0x02441453; 0xd8a1e681; 0xe7d3fbc8;
   0x21e1cde6; 0xc33707d6; 0xf4d50d87; 0x455a14ed;
   0xa9e3e905; 0xfcefa3f8; 0x676f02d9; 0x8d2a4c8a;
   0xfffa3942; 0x8771f681; 0x6d9d6122; 0xfde5380c;
   0xa4beea44; 0x4bdecfa9; 0xf6bb4b60; 0xbebfbc70;
   0x289b7ec6; 0xeaa127fa; 0xd4ef3085; 0x04881d05;
   0xd9d4d039; 0xe6db99e5; 0x1fa27cf8; 0xc4ac5665;
   0xf4292244; 0x432aff97; 0xab9423a7; 0xfc93a039;
   0x655b59c3; 0x8f0ccc92; 0xffeff47d; 0x85845dd1;
   0x6fa87e4f; 0xfe2ce6e0; 0xa3014314; 0x4e0811a1;
   0xf7537e82; 0xbd3af235; 0x2ad7d2bb; 0xeb86d391].

(** The four chaining words [(A, B, C, D)]. *)
Definition state : Type := Z * Z * Z * Z.

Definition init : state := (0x67452301, 0xefcdab89, 0x98badcfe, 0x10325476).

Definition round (M : list Z) (st : state) (i : nat) : state :=
  let '(a, b, c, d) := st in
  let '(f, g) :=
    if (i <? 16)%nat then (F b c d, i)
    else if (i <? 32)%nat then (G b c d, (5 * i + 1) mod 16)%nat
    else if (i <? 48)%nat then (H b c d, (3 * i + 5) mod 16)%nat
    else (I b c d, (7 * i) mod 16)%nat in
  let f' := add32 (add32 (add32 f a) (nth i K_table 0)) (nth g M 0) in
  (d, add32 b (rotl32 f' (nth i S_table 0)), b, c).

(** Little-endian bytes to a word, and back. *)
Fixpoint le_word (bs : list Z) : Z :=
  match bs with
  | [] => 0
  | b :: bs' => b + 256 * le_word bs'
  end.

Fixpoint le_bytes (n : nat) (x : Z) : list Z :=
  match n with
  | O => []
  | S n' => x mod 256 :: le_bytes n' (x / 256)
  end.

(** [chunks k n l]: the first [n] consecutive pieces of [k] elements of [l]. *)
Fixpoint chunks {A} (k n : nat) (l : list A) : list (list A) :=
  match n with
  | O => []
  | S n' => take k l :: chunks k n' (drop k l)
  end.

Definition process_block (st : state) (block : list Z) : state :=
  let M := le_word <$> chunks 4 16 block in
  let '(a, b, c, d) := st in
  let '(a', b', c', d') := fold_left (round M) (seq 0 64) st in
  (add32 a a', add32 b b', add32 c c', add32 d d').

Definition pad (msg : list Z) : list Z :=
  let len := length msg in
  let zeros := ((55 + 64 - len mod 64) mod 64)%nat in
  msg ++ [0x80] ++ replicate zeros 0
      ++ le_bytes 8 ((8 * Z.of_nat len) mod 2 ^ 64).

Definition digest (msg : list byte) : list Z :=
  let padded := pad ((fun b => Z.of_N (Byte.to_N b)) <$> msg) in
  let blocks := chunks 64 (length padded / 64) padded in
  let '(a, b, c, d) := fold_left process_block blocks init in
  le_bytes 4 a ++ le_bytes 4 b ++ le_bytes 4 c ++ le_bytes 4 d.

Definition hex_digit (x : Z) : ascii :=
  nth (Z.to_nat x)
      (list_ascii_of_string "0123456789abcdef") "0"%char.

Fixpoint hex (bs : list Z) : string :=
  match bs with
  | [] => EmptyString
  | b :: bs' => String (hex_digit (b / 16)) (String (hex_digit (b mod 16)) (hex bs'))
  end.

Definition hexdigest (msg : list byte) : string := hex (digest msg).

End MD5.


(** ** Python values and the platform

    [bytes] are lists of [byte]; a [dict] with string keys is a [gmap]. *)
Abbreviation bytes := (list byte).

(** The values [json.load] produces (numbers restricted to integers). *)
#[local] Unset Elimination Schemes.
Inductive pyval : Type :=
  | PNone
  | PBool (b : bool)
  | PInt (z : Z)
  | PStr (s : string)
  | PList (l : list pyval)
  | PDict (d : gmap string pyval).
#[local] Set Elimination Schemes.

(** Library functions of the interpreter and the host the class calls but does
    not define: [pathlib], [os.path], [mimetypes], [json], and the remote
    server behind [requests]. *)
Class Platform := {
  (** [Path(p).name] *)
  Path_name : string -> string;
  (** [mimetypes.guess_type(p)[0]] *)
  guess_type : string -> option string;
  (** [os.path.dirname], [os.path.join] *)
  os_path_dirname : string -> string;
  os_path_join : string -> string -> string;
  (** [json.load] on the content of a file; [None] when it raises. *)
  json_load : bytes -> option pyval;
  (** [json.dump(obj, f, indent=2)]: the text written. *)
  json_dump : pyval -> bytes;
  (** [POST upload_endpoint]: [None] when the request raises, otherwise the
      ['id'] of the JSON answer, if it has one. *)
  requests_post : gmap string pyval -> string -> bytes -> string -> Z ->
                  option (option string);
  (** [GET download_endpoint/cloud_id]: [None] on a [RequestException],
      otherwise [response.content]. *)
  requests_get : gmap string pyval -> string -> option bytes
}.

(** ** The world: disk and database

    The disk maps the paths of regular files to their content. A path is the
    string [pathlib] prints for it ([str(Path(p)) = p]); directories are not
    tracked, so [os.makedirs(..., exist_ok=True)] leaves the disk as it is. *)

(** A row of the table [files]; every column but [id] and [local_name]
    (NOT NULL) may hold NULL. *)
Record file_row := {
  id : Z;
  local_name : string;
  cloud_id : option string;
  cloud_name : option string;
  file_size : option Z;
  file_mime : option string;
  file_hash : option string;
  upload_date : option string;
  last_sync : option string;
  local_path : option string;
  is_synced : option Z;
  file_data : option bytes
}.

Record world := {
  disk : gmap string bytes;
  (** the rows of [files], in rowid order *)
  files : list file_row;
  (** the largest rowid ever handed out (table [sqlite_sequence]) *)
  sqlite_sequence : Z
}.

(** The world [w] with another disk. *)
Definition with_disk (d : gmap string bytes) (w : world) : world :=
  {| disk := d; files := files w; sqlite_sequence := sqlite_sequence w |}.

Inductive exn : Type :=
  | Exception (msg : string)
  | OSError (errno : string).

(** A call either returns a value or raises; both leave a world behind. *)
Inductive outcome (A : Type) : Type :=
  | Returns (a : A) (w : world)
  | Raises (e : exn) (w : world).
Arguments Returns {A} a w.
Arguments Raises {A} e w.

Definition py (A : Type) : Type := world -> outcome A.

#[global] Instance py_ret : MRet py := fun A a w => Returns a w.
#[global] Instance py_bind : MBind py := fun A B k m w =>
  match m w with
  | Returns a w' => k a w'
  | Raises e w' => Raises e w'
  end.

Definition raise {A} (e : exn) : py A := fun w => Raises e w.
Definition get_world : py world := fun w => Returns w w.

Definition final_world {A} (o : outcome A) : world :=
  match o with Returns _ w => w | Raises _ w => w end.

(** [with sqlite3.connect(db_path) as conn: body]: the connection commits when
    the body returns and rolls the database back when it raises; what the body
    did to the disk stays. *)
Definition with_connect {A} (body : py A) : py A := fun w =>
  match body w with
  | Returns a w' => Returns a w'
  | Raises e w' =>
      Raises e {| disk := disk w'; files := files w;
                  sqlite_sequence := sqlite_sequence w |}
  end.

(** *** Files on disk

    Reading a path the disk does not hold raises; of the ways a write can fail
    only the short write is modelled. *)

Definition path_exists (p : string) : py bool := fun w =>
  Returns (bool_decide (is_Some (disk w !! p))) w.

(** [open(p, 'rb').read()] / [Path(p).read_bytes()] *)
Definition read_bytes (p : string) : py bytes := fun w =>
  match disk w !! p with
  | Some data => Returns data w
  | None => Raises (OSError "ENOENT") w
  end.

Definition os_makedirs (d : string) : py unit := mret tt.

(** What a device with [room] bytes left ([None]: no limit) takes of [data]. *)
Definition accepted (room : option nat) (data : bytes) : bytes :=
  match room with
  | Some k => take k data
  | None => data
  end.

(** [with open(p, 'wb') as f: f.write(data)]. Opening creates or truncates the
    file, then the bytes go out in order; when the device takes fewer than
    [length data] of them the write raises and the file keeps what went out. *)
Definition write_bytes (p : string) (data : bytes) (room : option nat) : py unit :=
  fun w =>
    let opened := with_disk (<[p := []]> (disk w)) w in
    let out := accepted room data in
    let closed := with_disk (<[p := out]> (disk opened)) opened in
    if (length out <? length data)%nat
    then Raises (OSError "ENOSPC") closed
    else Returns tt closed.

(** *** The statements run against the table [files] *)

Definition set_files (rows : list file_row) (seq : Z) : py unit := fun w =>
  Returns tt {| disk := disk w; files := rows; sqlite_sequence := seq |}.

(** A parameter bound to [?] is never equal to NULL. *)
Definition has_file_hash (h : string) (r : file_row) : bool :=
  bool_decide (file_hash r = Some h).
Definition has_cloud_id (c : string) (r : file_row) : bool :=
  bool_decide (cloud_id r = Some c).
Definition has_id (i : Z) (r : file_row) : bool :=
  bool_decide (id r = i).

(** [SELECT id FROM files WHERE file_hash = ?] with [fetchone()] *)
Definition select_id_where_file_hash (h : string) : py (option Z) := fun w =>
  Returns (id <$> find (has_file_hash h) (files w)) w.

(** [SELECT local_path, file_data FROM files WHERE cloud_id = ?] with
    [fetchone()] *)
Definition select_path_data_where_cloud_id (c : string)
  : py (option (option string * option bytes)) := fun w =>
  Returns ((fun r => (local_path r, file_data r)) <$> find (has_cloud_id c) (files w)) w.

Definition max_rowid (rows : list file_row) : Z :=
  foldr (fun r m => Z.max (id r) m) 0 rows.

(** [INSERT INTO files (...) VALUES (...)] on an [INTEGER PRIMARY KEY
    AUTOINCREMENT] table: the new [id] is one more than the largest one that
    ever existed. *)
Definition insert_into_files (mk : Z -> file_row) : py unit := fun w =>
  let new_id := Z.max (sqlite_sequence w) (max_rowid (files w)) + 1 in
  set_files (files w ++ [mk new_id]) new_id w.

Definition set_file_data (data : bytes) (now : string) (r : file_row) : file_row :=
  {| id := id r; local_name := local_name r; cloud_id := cloud_id r;
     cloud_name := cloud_name r; file_size := file_size r;
     file_mime := file_mime r; file_hash := file_hash r;
     upload_date := upload_date r; last_sync := Some now;
     local_path := local_path r; is_synced := is_synced r;
     file_data := Some data |}.

(** [UPDATE files SET file_data = ?, last_sync = ? WHERE cloud_id = ?] *)
Definition update_file_data_where_cloud_id (data : bytes) (now c : string)
  : py unit := fun w =>
  set_files ((fun r => if has_cloud_id c r then set_file_data data now r else r)
               <$> files w)
            (sqlite_sequence w) w.

(** [DELETE FROM files WHERE id = ?] *)
Definition delete_from_files_where_id (i : Z) : py unit := fun w =>
  set_files (filter (fun r => id r <> i) (files w)) (sqlite_sequence w) w.

(** The order of TEXT values, NULL before every string. *)
Definition text_leb (a b : option string) : bool :=
  match a, b with
  | None, _ => true
  | Some _, None => false
  | Some x, Some y => String.leb x y
  end.

(** [r1] may come before [r2] under [ORDER BY upload_date DESC]. *)
Definition upload_date_desc (r1 r2 : file_row) : Prop :=
  Is_true (text_leb (upload_date r2) (upload_date r1)).

#[global] Instance upload_date_desc_dec : RelDecision upload_date_desc.
Proof. intros r1 r2. unfold upload_date_desc. apply _. Defined.

(** [SELECT * FROM files ORDER BY upload_date DESC] with [fetchall()] *)
Definition select_all_order_by_upload_date_desc : py (list file_row) := fun w =>
  Returns (merge_sort upload_date_desc (files w)) w.

(** ** The class [CloudStorage] *)

Definition DB_FILENAME : string := "cloud_files.sqlite3".
Definition CONFIG_FILENAME : string := "cloud_config.json".
Definition LOCAL_ONLY : bool := true.

Record CloudStorage := {
  db_path : string;
  config : gmap string pyval
}.

Definition default_config : gmap string pyval :=
  list_to_map
    [("cloud_server_url", PStr "https://your-cloud-server.com/api");
     ("api_key", PStr "your-api-key-here");
     ("upload_endpoint", PStr "/upload");
     ("download_endpoint", PStr "/download");
     ("list_endpoint", PStr "/list");
     ("delete_endpoint", PStr "/delete");
     ("timeout", PInt 30)].

(** The hash object of [hashlib.md5()]: [update] appends to the message fed so
    far, [hexdigest] is the digest of that message. *)
Record md5_object := { message : bytes }.
Definition hashlib_md5 : md5_object := {| message := [] |}.
Definition update (h : md5_object) (chunk : bytes) : md5_object :=
  {| message := message h ++ chunk |}.
Definition hexdigest (h : md5_object) : string := MD5.hexdigest (message h).

(** The size of the reads of [_get_file_hash]. *)
Definition CHUNK : nat := 4096.

(** [for chunk in iter(lambda: f.read(4096), b""): hash_md5.update(chunk)],
    with [f] the bytes not read yet. *)
Equations? update_chunks (h : md5_object) (f : bytes) : md5_object
  by wf (length f) lt :=
  update_chunks h f with inspect (take CHUNK f) := {
    | exist _ [] _ => h
    | exist _ (c :: chunk) Hread =>
        update_chunks (update h (c :: chunk)) (drop CHUNK f) }.
Proof.
  rewrite length_drop. destruct f as [|b f]; [discriminate|].
  pose proof (Nat.lt_0_succ 4095 : (0 < CHUNK)%nat). cbn [length]. lia.
Qed.

(** The truth value of an optional string: [None] and the empty string are falsy. *)
Definition truthy (o : option string) : bool :=
  match o with
  | Some (String _ _) => true
  | _ => false
  end.

Section CloudStorage.
Context `{Platform}.

(** [os.path.join(os.path.dirname(self.db_path), CONFIG_FILENAME)] *)
Definition config_path (db_path : string) : string :=
  os_path_join (os_path_dirname db_path) CONFIG_FILENAME.

(** [room] is the number of bytes the device takes when the defaults are
    written (see [write_bytes]). *)
Definition _load_config (db_path : string) (room : option nat)
  : py (gmap string pyval) :=
  let config_path := config_path db_path in
  present ← path_exists config_path;
  loaded ← (if present : bool then
              (* try: json.load, then {**default_config, **config};
                 except Exception: print *)
              text ← read_bytes config_path;
              match json_load text with
              | Some (PDict config) => mret (Some (config ∪ default_config))
              | _ => mret None
              end
            else mret None);
  match loaded with
  | Some merged => mret merged
  | None =>
      write_bytes config_path (json_dump (PDict default_config)) room;;
      mret default_config
  end.

Definition _get_file_hash (file_path : string) : py string :=
  f ← read_bytes file_path;
  mret (hexdigest (update_chunks hashlib_md5 f)).

(** ["your-cloud-server.com" in self.config["cloud_server_url"]] *)
Definition placeholder_url (self : CloudStorage) : bool :=
  match config self !! "cloud_server_url" with
  | Some (PStr url) =>
      match index 0 "your-cloud-server.com" url with
      | Some _ => true
      | None => false
      end
  | _ => false
  end.

(** [LOCAL_ONLY or ...]: with [LOCAL_ONLY] set the configuration is not
    consulted. *)
Definition local_vault (self : CloudStorage) : bool :=
  LOCAL_ONLY || placeholder_url self.

Definition octet_stream (mime : option string) : string :=
  default "application/octet-stream" (if truthy mime then mime else None).

(** [uuid4] is what [str(uuid.uuid4())] gives in this call, [utcnow1] and
    [utcnow2] what the two [datetime.datetime.utcnow().isoformat()] give. In
    the remote branch an error of any kind, also on opening the file, falls
    back to the local id. *)
Definition upload_file (self : CloudStorage) (file_path : string)
    (cloud_name : option string) (uuid4 utcnow1 utcnow2 : string)
  : py (string * string) :=
  present ← path_exists file_path;
  if negb present then raise (Exception "File does not exist") else
  let cloud_name :=
    if truthy cloud_name then default "" cloud_name else Path_name file_path in
  file_hash ← _get_file_hash file_path;
  with_connect (
    existing ← select_id_where_file_hash file_hash;
    if existing is Some _
    then raise (Exception "File already exists with same content")
    else mret tt);;
  '(cloud_id, is_synced) ←
    (if local_vault self then mret (uuid4, 0)
     else
       w ← get_world;
       match disk w !! file_path with
       | Some content =>
           match requests_post (config self) cloud_name content file_hash
                               (Z.of_nat (length content)) with
           | Some (Some remote_id) => mret (remote_id, 1)
           | Some None => mret (uuid4, 1)
           | None => mret (uuid4, 0)
           end
       | None => mret (uuid4, 0)
       end);
  with_connect (
    file_bytes ← read_bytes file_path;
    insert_into_files (fun new_id =>
      {| id := new_id;
         local_name := Path_name file_path;
         cloud_id := Some cloud_id;
         cloud_name := Some cloud_name;
         file_size := Some (Z.of_nat (length file_bytes));
         file_mime := Some (octet_stream (guess_type file_path));
         file_hash := Some file_hash;
         upload_date := Some utcnow1;
         last_sync := Some utcnow2;
         local_path := Some file_path;
         is_synced := Some is_synced;
         file_data := Some file_bytes |}));;
  mret (cloud_id, cloud_name).

(** [os.path.dirname(local_path) or '.'] *)
Definition dirname_or_dot (local_path : string) : string :=
  let d := os_path_dirname local_path in
  if truthy (Some d) then d else ".".

(** [utcnow] is what [datetime.datetime.utcnow().isoformat()] gives in this
    call, [room] the number of bytes the device takes of the write to
    [local_path] (see [write_bytes]). *)
Definition download_file (self : CloudStorage) (cloud_id local_path : string)
    (utcnow : string) (room : option nat) : py bool :=
  if local_vault self then
    with_connect (
      row ← select_path_data_where_cloud_id cloud_id;
      match row with
      | None => raise (Exception "File record not found")
      | Some (local_src, Some blob) =>
          os_makedirs (dirname_or_dot local_path);;
          write_bytes local_path blob room;;
          mret true
      | Some (local_src, None) =>
          present ← (if truthy local_src
                     then path_exists (default "" local_src)
                     else mret false);
          if present : bool then
            data ← read_bytes (default "" local_src);
            os_makedirs (dirname_or_dot local_path);;
            write_bytes local_path data room;;
            update_file_data_where_cloud_id data utcnow cloud_id;;
            mret true
          else
            raise (Exception "This entry has no stored file data and the original path no longer exists. Re-upload the file to store it in the vault.")
      end)
  else
    match requests_get (config self) cloud_id with
    | Some content => write_bytes local_path content room;; mret true
    | None => raise (Exception "Download failed")
        (* the message goes on with the text of the request's error *)
    end.

Definition get_local_files (self : CloudStorage) : py (list file_row) :=
  with_connect select_all_order_by_upload_date_desc.

Definition remove_local_file (self : CloudStorage) (file_id : Z) : py unit :=
  with_connect (delete_from_files_where_id file_id).

(** *** Histories

    What can happen to a vault between two calls: the calls of the class, with
    their arguments, and changes other programs make to the disk. *)
Inductive event : Type :=
  | Upload (file_path : string) (cloud_name : option string)
           (uuid4 utcnow1 utcnow2 : string)
  | Download (cloud_id local_path utcnow : string) (room : option nat)
  | List_files
  | Remove (file_id : Z)
  | Disk_becomes (d : gmap string bytes).

Definition after_event (self : CloudStorage) (w : world) (e : event) : world :=
  match e with
  | Upload p name u t1 t2 => final_world (upload_file self p name u t1 t2 w)
  | Download c dst now room => final_world (download_file self c dst now room w)
  | List_files => final_world (get_local_files self w)
  | Remove i => final_world (remove_local_file self i w)
  | Disk_becomes d => with_disk d w
  end.

Definition after_events (self : CloudStorage) (w : world) (es : list event)
  : world :=
  fold_left (after_event self) es w.

End CloudStorage.

(** ** A sample platform

    POSIX paths, a three-entry MIME table, a reader and a printer for the JSON
    of a settings file (one object of strings, integers, booleans and nulls),
    and no remote server. It serves to run the model on concrete inputs. *)
Module Sample.

Definition has_slash (p : string) : bool :=
  if index 0 "/" p is Some _ then true else false.

(** What follows the last ["/"]. *)
Fixpoint name (p : string) : string :=
  match p with
  | EmptyString => ""
  | String c p' =>
      if has_slash p' then name p'
      else if Ascii.eqb c "/" then p' else p
  end.

(** What precedes the last ["/"]. *)
Fixpoint parent (p : string) : string :=
  match p with
  | EmptyString => ""
  | String c p' => if has_slash p' then String c (parent p') else ""
  end.

Definition dirname (p : string) : string :=
  if (parent p =? "")%string && String.prefix "/" p then "/" else parent p.

Definition ends_with (suffix p : string) : bool :=
  String.prefix (String.rev suffix) (String.rev p).

Definition join (a b : string) : string :=
  if String.prefix "/" b then b
  else if (a =? "")%string || ends_with "/" a then a ++ b
  else a ++ "/" ++ b.

Definition mime (p : string) : option string :=
  if ends_with ".txt" p then Some "text/plain"
  else if ends_with ".json" p then Some "application/json"
  else if ends_with ".png" p then Some "image/png"
  else None.

Definition is_space (c : ascii) : bool :=
  bool_decide (c ∈ [" "; "009"; "010"; "013"]%char).

Fixpoint skip_spaces (l : list ascii) : list ascii :=
  match l with
  | c :: l' => if is_space c then skip_spaces l' else l
  | [] => []
  end.

(** The characters up to the closing quote; escapes are not read. *)
Fixpoint read_string (l : list ascii) : option (string * list ascii) :=
  match l with
  | [] => None
  | c :: l' =>
      if Ascii.eqb c "034" then Some ("", l')
      else if Ascii.eqb c "\" then None
      else '(s, rest) ← read_string l'; Some (String c s, rest)
  end.

Definition digit (c : ascii) : option Z :=
  let n := Z.of_N (N_of_ascii c) in
  if ((48 <=? n) && (n <=? 57))%Z then Some (n - 48) else None.

Fixpoint read_digits (l : list ascii) (acc : Z) : Z * list ascii :=
  match l with
  | c :: l' =>
      if digit c is Some d then read_digits l' (10 * acc + d) else (acc, l)
  | [] => (acc, [])
  end.

Definition read_value (l : list ascii) : option (pyval * list ascii) :=
  match l with
  | "034" :: l' => '(s, rest) ← read_string l'; Some (PStr s, rest)
  | "n" :: "u" :: "l" :: "l" :: rest => Some (PNone, rest)
  | "t" :: "r" :: "u" :: "e" :: rest => Some (PBool true, rest)
  | "f" :: "a" :: "l" :: "s" :: "e" :: rest => Some (PBool false, rest)
  | "-" :: c :: l' =>
      if digit c is Some _
      then let '(n, rest) := read_digits (c :: l') 0 in Some (PInt (- n), rest)
      else None
  | c :: l' =>
      if digit c is Some _
      then let '(n, rest) := read_digits (c :: l') 0 in Some (PInt n, rest)
      else None
  | [] => None
  end%char.

(** The members of an object, after its opening brace; a key met again
    replaces the earlier value. *)
Fixpoint read_members (fuel : nat) (l : list ascii) (d : gmap string pyval)
  : option (gmap string pyval * list ascii) :=
  match fuel with
  | O => None
  | S fuel' =>
      match skip_spaces l with
      | "034"%char :: l1 =>
          '(k, l2) ← read_string l1;
          match skip_spaces l2 with
          | ":"%char :: l3 =>
              '(v, l4) ← read_value (skip_spaces l3);
              match skip_spaces l4 with
              | ","%char :: l5 => read_members fuel' l5 (<[k := v]> d)
              | "}"%char :: l5 => Some (<[k := v]> d, l5)
              | _ => None
              end
          | _ => None
          end
      | _ => None
      end
  end.

Definition load (text : bytes) : option pyval :=
  match skip_spaces (ascii_of_byte <$> text) with
  | "{"%char :: l =>
      '(d, rest) ← (if skip_spaces l is "}"%char :: rest then Some (∅, rest)
                    else read_members (length l) l ∅);
      if skip_spaces rest is [] then Some (PDict d) else None
  | _ => None
  end.

Definition quoted (s : string) : string :=
  String "034" s ++ String "034" EmptyString.

Definition dump_value (v : pyval) : string :=
  match v with
  | PStr s => quoted s
  | PInt z => pretty z
  | PBool true => "true"
  | PBool false => "false"
  | _ => "null"
  end.

Definition newline : string := String "010" "".

Definition dump_member (kv : string * pyval) : string :=
  newline ++ "  " ++ quoted kv.1 ++ ": " ++ dump_value kv.2.

Definition dump (v : pyval) : bytes :=
  list_byte_of_string
    match v with
    | PDict d =>
        match dump_member <$> map_to_list d with
        | [] => "{}"
        | m :: ms => "{" ++ m ++ foldr (fun x acc => "," ++ x ++ acc) "" ms
                         ++ newline ++ "}"
        end
    | _ => dump_value v
    end.

#[global] Instance platform : Platform := {|
  Path_name := name;
  guess_type := mime;
  os_path_dirname := dirname;
  os_path_join := join;
  json_load := load;
  json_dump := dump;
  requests_post := fun _ _ _ _ _ => None;
  requests_get := fun _ _ => None
|}.

Definition storage : CloudStorage :=
  {| db_path := "/vault/cloud_files.sqlite3"; config := default_config |}.

(** A home directory with one file and an empty table; then the same after
    the file has been uploaded. *)
Definition digits : bytes := list_byte_of_string "1234567890".
Definition digits_txt : string := "/home/u/digits.txt".
Definition uuid : string := "1b9d6bcd-bbfd-4b2d-9b5d-ab8dfbbd4bed".
Definition downloads : string := "/home/u/Downloads/digits.txt".

Definition home : world :=
  {| disk := {[ digits_txt := digits ]}; files := []; sqlite_sequence := 0 |}.

Definition vault : world :=
  final_world
    (upload_file storage digits_txt None uuid
       "2024-05-01T10:00:00" "2024-05-01T10:00:00.000012" home).

(** The row of that upload. *)
Definition digits_row : file_row :=
  {| id := 1; local_name := "digits.txt"; cloud_id := Some uuid;
     cloud_name := Some "digits.txt"; file_size := Some 10;
     file_mime := Some "text/plain";
     file_hash := Some "e807f1fcf82d132f9bb018ca6738a19f";
     upload_date := Some "2024-05-01T10:00:00";
     last_sync := Some "2024-05-01T10:00:00.000012";
     local_path := Some digits_txt; is_synced := Some 0;
     file_data := Some digits |}.

(** The vault after the file has been copied to another place. *)
Definition vault_with_copy : world :=
  with_disk (<["/tmp/copy.bin" := digits]> (disk vault)) vault.

(** Things that happen to the vault later on: a listing, the deletion of a
    row that is not there, a fetch cut short, and the loss of every file. *)
Definition history : list event :=
  [List_files; Remove 7; Download uuid "/tmp/cut.txt" "2024-05-02T08:00:00" (Some 3%nat);
   Disk_becomes ∅].

(** A table with one row that has no blob, with and without the file the row
    was made from. *)
Definition notes_row : file_row :=
  {| id := 1; local_name := "notes.txt"; cloud_id := Some "legacy-1";
     cloud_name := Some "notes.txt"; file_size := Some 5;
     file_mime := Some "text/plain"; file_hash := None;
     upload_date := Some "2023-01-15T08:30:00"; last_sync := None;
     local_path := Some "/home/u/notes.txt"; is_synced := Some 0;
     file_data := None |}.

Definition legacy : world :=
  {| disk := {[ "/home/u/notes.txt" := list_byte_of_string "hello" ]};
     files := [notes_row]; sqlite_sequence := 1 |}.

Definition orphaned : world := with_disk ∅ legacy.

(** A settings file that sets one key. *)
Definition settings : bytes :=
  list_byte_of_string ("{" ++ quoted "timeout" ++ ": 5}").

Definition configured : world :=
  with_disk {[ "/vault/cloud_config.json" := settings ]} home.

End Sample.

(** ** Invariants and derived notions used in the statements *)

(** No two rows carry the same (non-NULL) [file_hash]. *)
Definition hashes_unique (rows : list file_row) : Prop :=
  NoDup (omap file_hash rows).

(** The bytes a fetch of the row [r] has to write: the stored blob, else the
    content of the file at [local_path], if there is one. *)
Definition fetch_source (w : world) (r : file_row) : option bytes :=
  match file_data r with
  | Some blob => Some blob
  | None =>
      if truthy (local_path r)
      then disk w !! default EmptyString (local_path r)
      else None
  end.

(** The number of rows that carry the hash [h]. *)
Definition count_hash (h : string) (rows : list file_row) : nat :=
  length (List.filter (has_file_hash h) rows).

(** The ids of the rows are distinct and none is above [sqlite_sequence]. *)
Definition rowids_ok (w : world) : Prop :=
  NoDup (id <$> files w)
  /\ Forall (fun r => id r <= sqlite_sequence w) (files w).

(** A database in which the table [files] has just been created. *)
Definition new_vault (d : gmap string bytes) : world :=
  {| disk := d; files := []; sqlite_sequence := 0 |}.

(** What the [UPDATE] of a backfill does to a row. *)
Definition backfilled (c : string) (data : bytes) (now : string) (r : file_row)
  : file_row :=
  if has_cloud_id c r then set_file_data data now r else r.

(** ** The schema of the table [files]

    What [_ensure_database] sees of the database: whether the table is there,
    its columns with their declarations, and the rows it holds, which the
    function never reads. *)

(** SQLite compares column names without regard to the case of ASCII
    letters. *)
Definition ascii_lower (c : ascii) : ascii :=
  let n := N_of_ascii c in
  if ((65 <=? n) && (n <=? 90))%N then ascii_of_N (n + 32) else c.

Fixpoint lower_ascii (s : string) : string :=
  match s with
  | EmptyString => EmptyString
  | String c s' => String (ascii_lower c) (lower_ascii s')
  end.

Definition same_name (a b : string) : bool :=
  (lower_ascii a =? lower_ascii b)%string.

Record table (R : Type) := {
  columns : list (string * string);
  stored : list R
}.
Arguments columns {R} t.
Arguments stored {R} t.

Definition has_column {R} (name : string) (t : table R) : bool :=
  existsb (fun c => same_name name c.1) (columns t).

(** The columns of the [CREATE TABLE] statement. *)
Definition created_columns : list (string * string) :=
  [("id", "INTEGER PRIMARY KEY AUTOINCREMENT");
   ("local_name", "TEXT NOT NULL");
   ("cloud_id", "TEXT");
   ("cloud_name", "TEXT");
   ("file_size", "INTEGER");
   ("file_mime", "TEXT");
   ("file_hash", "TEXT");
   ("upload_date", "TEXT");
   ("last_sync", "TEXT");
   ("local_path", "TEXT");
   ("is_synced", "INTEGER DEFAULT 0")].

(** [CREATE TABLE IF NOT EXISTS files (...)] *)
Definition create_table_if_not_exists {R} (db : option (table R)) : table R :=
  match db with
  | Some t => t
  | None => {| columns := created_columns; stored := [] |}
  end.

(** [ALTER TABLE files ADD COLUMN ...]; [None] is the
    [sqlite3.OperationalError] of a column that is there already. *)
Definition alter_table_add_column {R} (c : string * string) (t : table R)
  : option (table R) :=
  if has_column c.1 t then None
  else Some {| columns := columns t ++ [c]; stored := stored t |}.

(** [try: conn.execute("ALTER TABLE ...") except sqlite3.OperationalError: pass] *)
Definition add_column_or_pass {R} (c : string * string) (t : table R) : table R :=
  default t (alter_table_add_column c t).

Definition _ensure_database {R} (db : option (table R)) : table R :=
  let t := create_table_if_not_exists db in
  let t := add_column_or_pass ("file_hash", "TEXT") t in
  let t := add_column_or_pass ("local_path", "TEXT") t in
  add_column_or_pass ("file_data", "BLOB") t.

(** The columns [upload_file] names in its [INSERT]. *)
Definition inserted_columns : list string :=
  ["local_name"; "cloud_id"; "cloud_name"; "file_size"; "file_mime";
   "file_hash"; "upload_date"; "last_sync"; "local_path"; "is_synced";
   "file_data"].

(** ** Requests to the server *)

(** What can be raised in the methods that talk to the server and in the
    handlers of the window, besides the exceptions of the vault. *)
Inductive failure : Type :=
  | Raised (e : exn)
  | KeyError (key : string)
  | TypeError
  | ValueError
  | AttributeError
  | RequestException.

Definition is_RequestException (f : failure) : bool :=
  match f with RequestException => true | _ => false end.

#[global] Instance failure_ret : MRet (sum failure) := fun A a => inr a.
#[global] Instance failure_bind : MBind (sum failure) := fun A B k m =>
  match m with
  | inl f => inl f
  | inr a => k a
  end.

(** Keyword arguments of [_make_request]: [headers], [timeout], and the others,
    which are passed on as they are. *)
Record kwargs := {
  kw_headers : option (gmap string string);
  kw_timeout : option pyval;
  kw_others : list (string * pyval)
}.

Definition no_kwargs : kwargs :=
  {| kw_headers := None; kw_timeout := None; kw_others := [] |}.

(** The arguments [requests.request] is called with. *)
Record request := {
  req_method : string;
  req_url : string;
  req_headers : gmap string string;
  req_timeout : pyval;
  req_others : list (string * pyval)
}.

(** An answer: its status and what [response.json()] gives or raises. *)
Record response := {
  status_code : Z;
  json : failure + pyval
}.

(** The library functions behind the requests: [urllib.parse.urljoin] ([None]
    when it raises), the built-in [str] as the f-strings use it, and
    [requests.request] ([None] when it raises a [RequestException]: no
    connection, a timeout). *)
Class Web := {
  urljoin : pyval -> pyval -> option string;
  py_str : pyval -> string;
  requests_request : request -> option response
}.

(** [needle in v] for a string [needle]: a substring of a string, an element
    of a list, a key of a dict; other values are not iterable. *)
Definition py_in (needle : string) (v : pyval) : failure + bool :=
  match v with
  | PStr s => inr (if index 0 needle s is Some _ then true else false)
  | PList l =>
      inr (existsb (fun x => if x is PStr s then (s =? needle)%string else false) l)
  | PDict d => inr (bool_decide (is_Some (d !! needle)))
  | _ => inl TypeError
  end.

(** [d[key]] *)
Definition getitem (d : gmap string pyval) (key : string) : failure + pyval :=
  match d !! key with
  | Some v => inr v
  | None => inl (KeyError key)
  end.

Section Requests.
Context `{Web}.

(** [response.raise_for_status()] *)
Definition raise_for_status (r : response) : failure + unit :=
  if ((400 <=? status_code r) && (status_code r <? 600))%Z
  then inl RequestException else inr tt.

Definition _make_request (self : CloudStorage) (method : string)
    (endpoint : pyval) (kw : kwargs) : failure + response :=
  base ← getitem (config self) "cloud_server_url";
  url ← (if urljoin base endpoint is Some u then inr u else inl TypeError);
  api_key ← getitem (config self) "api_key";
  let headers : gmap string string :=
    <["Authorization" := "Bearer " ++ py_str api_key]>
      {[ "User-Agent" := "CloudFileManager/1.0" ]} in
  let headers :=
    match kw_headers kw with
    | Some given => given ∪ headers
    | None => headers
    end in
  timeout ← getitem (config self) "timeout";
  response ← (if requests_request
                   {| req_method := method; req_url := url;
                      req_headers := headers; req_timeout := timeout;
                      req_others := kw_others kw |} is Some r
              then inr r else inl RequestException);
  raise_for_status response;;
  mret response.

Definition delete_cloud_file (self : CloudStorage) (cloud_id : string)
  : failure + bool :=
  url ← getitem (config self) "cloud_server_url";
  placeholder ← py_in "your-cloud-server.com" url;
  if placeholder : bool then mret true else
  endpoint ← getitem (config self) "delete_endpoint";
  match _make_request self "DELETE"
          (PStr (py_str endpoint ++ "/" ++ cloud_id)) no_kwargs with
  | inr _ => mret true
  | inl RequestException => inl (Raised (Exception "Delete failed"))
      (* the message goes on with the text of the request's error *)
  | inl e => inl e
  end.

Definition get_cloud_files (self : CloudStorage) : failure + pyval :=
  url ← getitem (config self) "cloud_server_url";
  placeholder ← py_in "your-cloud-server.com" url;
  if placeholder : bool then mret (PList []) else
  endpoint ← getitem (config self) "list_endpoint";
  let answer :=
    response ← _make_request self "GET" endpoint no_kwargs;
    body ← json response;
    match body with
    | PDict d => mret (default (PList []) (d !! "files"))
    | _ => inl AttributeError
    end in
  match answer with
  | inl RequestException => mret (PList [])
  | _ => answer
  end.


End Requests.

(** ** The handlers of the window ([CloudFileApp])

    Of the window only what a handler leaves in it is kept: the text of the
    status line and the message box it opened. A handler that starts a worker
    thread is taken together with its worker, run to its end. *)
Inductive dialog : Type :=
  | showinfo (title message : string)
  | showwarning (title message : string)
  | showerror (title : string) (error : failure).

Record window := {
  status_var : option string;
  messagebox : option dialog
}.

Definition untouched : window := {| status_var := None; messagebox := None |}.

(** Built-ins the settings dialog uses: [str.isdigit] and [int] ([None] when
    it raises a [ValueError]). *)
Class Builtins := {
  str_isdigit : string -> bool;
  py_int : string -> option Z
}.

Module CloudFileApp.
Section Handlers.
Context `{Platform} `{Web} `{Builtins}.

(** [for file in files: if file['local_name'] == file_name: ... break] *)
Definition selected_file (file_name : pyval) (files : list file_row)
  : option file_row :=
  find (fun file => if file_name is PStr s
                    then (local_name file =? s)%string else false) files.

(** [selection] is [None] when no line of the list is selected, otherwise the
    [values] of the selected line; [file_path] is what the file dialog gave,
    empty when it was cancelled. *)
Definition upload_file (self : CloudStorage) (file_path : string)
    (uuid4 utcnow1 utcnow2 : string) (w : world) : window * world :=
  if negb (truthy (Some file_path)) then (untouched, w) else
  match upload_file self file_path None uuid4 utcnow1 utcnow2 w with
  | Returns result w' =>
      ({| status_var := Some ("Uploaded: " ++ result.2); messagebox := None |}, w')
  | Raises e w' =>
      ({| status_var := Some "Upload failed";
          messagebox := Some (showerror "Upload Error" (Raised e)) |}, w')
  end.

(** [downloads_dir] is what [get_downloads_dir()] returns. *)
Definition download_file (self : CloudStorage) (downloads_dir : string)
    (selection : option (list pyval)) (utcnow : string) (room : option nat)
    (w : world) : window * world :=
  match selection with
  | None =>
      ({| status_var := None;
          messagebox := Some (showinfo "Download"
                                "Please select a file to download.") |}, w)
  | Some [] => (untouched, w)
  | Some (file_name :: _) =>
      match get_local_files self w with
      | Raises _ w' => (untouched, w')
      | Returns files w' =>
          match selected_file file_name files with
          | Some file =>
              if negb (truthy (cloud_id file)) then
                ({| status_var := None;
                    messagebox := Some (showwarning "Download"
                                          "File not found in cloud storage.") |},
                 w')
              else
                let save_path := os_path_join downloads_dir (local_name file) in
                if bool_decide (is_Some (disk w' !! save_path)) then
                  ({| status_var := Some ("Already exists: " ++ save_path);
                      messagebox :=
                        Some (showinfo "Download"
                                ("File already exists in Downloads:"
                                 ++ String "010" save_path)) |}, w')
                else
                  match download_file self (default EmptyString (cloud_id file))
                          save_path utcnow room w' with
                  | Returns _ w'' =>
                      ({| status_var := Some ("Downloaded to: " ++ save_path);
                          messagebox := None |}, w'')
                  | Raises e w'' =>
                      ({| status_var := Some "Download failed";
                          messagebox :=
                            Some (showerror "Download Error" (Raised e)) |}, w'')
                  end
          | None =>
              ({| status_var := None;
                  messagebox := Some (showwarning "Download"
                                        "File not found in cloud storage.") |},
               w')
          end
      end
  end.


(** The entry for the timeout: [int(text) if text.isdigit() else 30]. *)
Definition timeout_entry (text : string) : failure + pyval :=
  if str_isdigit text
  then (if py_int text is Some n then inr (PInt n) else inl ValueError)
  else inr (PInt 30).

(** [save_settings] of the settings dialog, with the texts of its seven
    entries. It returns what was raised, if anything, and the storage object,
    whose configuration it updates in place before it writes the file. *)
Definition save_settings (self : CloudStorage)
    (url key upload download list delete timeout : string) (room : option nat)
    (w : world) : option failure * CloudStorage * world :=
  match timeout_entry timeout with
  | inl e => (Some e, self, w)
  | inr seconds =>
      let updated :=
        {| db_path := db_path self;
           config :=
             <["timeout" := seconds]>
               (<["delete_endpoint" := PStr delete]>
                  (<["list_endpoint" := PStr list]>
                     (<["download_endpoint" := PStr download]>
                        (<["upload_endpoint" := PStr upload]>
                           (<["api_key" := PStr key]>
                              (<["cloud_server_url" := PStr url]>
                                 (config self))))))) |} in
      match write_bytes (config_path (db_path self))
              (json_dump (PDict (config updated))) room w with
      | Returns _ w' => (None, updated, w')
      | Raises e w' => (Some (Raised e), updated, w')
      end
  end.

End Handlers.
End CloudFileApp.

(** ** A sample server

    One host that answers, [https://cloud.example], and nothing else on the
    network; [urljoin] for absolute paths; [str], [str.isdigit] and [int] on
    the values and texts of a settings file. *)
Module Server.

(** Scheme and host of a URL: what precedes the first ["/"] after ["://"]. *)
Definition site (url : string) : string :=
  match index 0 "://" url with
  | Some i =>
      match index (i + 3) "/" url with
      | Some j => substring 0 j url
      | None => url
      end
  | None => EmptyString
  end.

Definition join (base endpoint : pyval) : option string :=
  match base, endpoint with
  | PStr b, PStr e =>
      if String.prefix "/" e then Some (site b ++ e)
      else Some (Sample.parent b ++ "/" ++ e)
  | _, _ => None
  end.

Definition to_str (v : pyval) : string :=
  match v with
  | PStr s => s
  | PInt z => pretty z
  | PBool true => "True"
  | PBool false => "False"
  | PNone => "None"
  | PList _ => "[...]"
  | PDict _ => "{...}"
  end.

(** [GET] is answered 200 with an empty list of files, [DELETE] 204, anything
    else 405. *)
Definition answer (req : request) : option response :=
  if String.prefix "https://cloud.example/" (req_url req) then
    if (req_method req =? "GET")%string then
      Some {| status_code := 200;
              json := inr (PDict {[ "files" := PList [] ]}) |}
    else if (req_method req =? "DELETE")%string then
      Some {| status_code := 204; json := inl ValueError |}
    else Some {| status_code := 405; json := inl ValueError |}
  else None.

#[global] Instance web : Web := {|
  urljoin := join;
  py_str := to_str;
  requests_request := answer
|}.

Definition all_digits (text : string) : bool :=
  match text with
  | EmptyString => false
  | _ => forallb (fun c => if Sample.digit c is Some _ then true else false)
           (list_ascii_of_string text)
  end.

#[global] Instance builtins : Builtins := {|
  str_isdigit := all_digits;
  py_int := fun text => Some (Sample.read_digits (list_ascii_of_string text) 0).1
|}.

(** The sample storage, configured for the host that answers and for one that
    does not. *)
Definition online : CloudStorage :=
  {| db_path := db_path Sample.storage;
     config := <["cloud_server_url" := PStr "https://cloud.example/api"]>
                 default_config |}.


End Server.

(** ** More sample data *)
Module Cases.

(** A platform that agrees with the sample on the names and types of files
    and on nothing else. *)
Definition bare : Platform := {|
  Path_name := Sample.name;
  guess_type := Sample.mime;
  os_path_dirname := fun _ => EmptyString;
  os_path_join := fun a b => a ++ b;
  json_load := fun _ => None;
  json_dump := fun _ => [];
  requests_post := fun _ _ _ _ _ => None;
  requests_get := fun _ _ => None
|}.

(** The sample vault after its row has been deleted and the same file
    uploaded again. *)
Definition emptied : list event := [Remove 1].

Definition uuid' : string := "7c9e6679-7425-40de-944b-e07fc1f90ae7".

Definition again : world :=
  final_world
    (upload_file Sample.storage Sample.digits_txt None uuid'
       "2024-05-03T10:00:00" "2024-05-03T10:00:00.000015"
       (after_events Sample.storage Sample.vault emptied)).

Definition digits_row' : file_row :=
  {| id := 2; local_name := "digits.txt"; cloud_id := Some uuid';
     cloud_name := Some "digits.txt"; file_size := Some 10;
     file_mime := Some "text/plain";
     file_hash := Some "e807f1fcf82d132f9bb018ca6738a19f";
     upload_date := Some "2024-05-03T10:00:00";
     last_sync := Some "2024-05-03T10:00:00.000015";
     local_path := Some Sample.digits_txt; is_synced := Some 0;
     file_data := Some Sample.digits |}.

(** Two rows without a blob that carry the same [cloud_id], and a third
    row. *)
Definition notes_copy : file_row :=
  {| id := 3; local_name := "notes (copy).txt"; cloud_id := Some "legacy-1";
     cloud_name := Some "notes (copy).txt"; file_size := Some 5;
     file_mime := Some "text/plain"; file_hash := None;
     upload_date := Some "2023-01-16T08:30:00"; last_sync := None;
     local_path := None; is_synced := Some 0; file_data := None |}.

Definition twins : world :=
  {| disk := {[ "/home/u/notes.txt" := list_byte_of_string "hello" ]};
     files := [Sample.notes_row; digits_row'; notes_copy];
     sqlite_sequence := 3 |}.




(** What the settings dialog leaves when it is saved with the address of
    the sample server and a timeout of 45 seconds. *)
Definition saved : option failure * CloudStorage * world :=
  CloudFileApp.save_settings Sample.storage "https://cloud.example/api"
    "secret" "/upload" "/download" "/list" "/delete" "45" None Sample.home.

End Cases.

Example md5_empty :
  MD5.hexdigest [] = "d41d8cd98f00b204e9800998ecf8427e".
Proof. vm_compute. reflexivity. Qed.

Example md5_abc :
  MD5.hexdigest (list_byte_of_string "abc") = "900150983cd24fb0d6963f7d28e17f72".
Proof. vm_compute. reflexivity. Qed.

Example md5_digits :
  MD5.hexdigest (list_byte_of_string "1234567890") = "e807f1fcf82d132f9bb018ca6738a19f".
Proof. vm_compute. reflexivity. Qed.

Example md5_two_blocks :
  MD5.hexdigest (replicate 56 "a"%byte) = "3b0c8ac703f828b04c6c197006d17218"
  /\ MD5.hexdigest (replicate 120 "a"%byte) = "5f61c0ccad4cac44c75ff505e1f1e537"
  /\ MD5.hexdigest (replicate 64 "a"%byte) = "014842d480b571495a4a0363793f7367"
  /\ MD5.hexdigest (replicate 55 "a"%byte) = "ef1772b6dff9a122358552954ad0df65".
Proof. vm_compute. repeat split; reflexivity. Qed.

Example sample_paths :
  Sample.name "/home/u/a.txt" = "a.txt" /\ Sample.name "a.txt" = "a.txt"
  /\ Sample.dirname "/home/u/a.txt" = "/home/u" /\ Sample.dirname "/a" = "/"
  /\ Sample.dirname "a" = ""
  /\ Sample.join "/vault" "cloud_config.json" = "/vault/cloud_config.json"
  /\ Sample.mime "/home/u/a.txt" = Some "text/plain".
Proof. vm_compute. repeat split; reflexivity. Qed.

Example sample_json_round_trip :
  Sample.load (Sample.dump (PDict default_config)) = Some (PDict default_config).
Proof. vm_compute. reflexivity. Qed.

Example sample_json_rejects :
  Sample.load [] = None
  /\ Sample.load (list_byte_of_string "[]") = None
  /\ Sample.load (list_byte_of_string ("{" ++ Sample.quoted "timeout" ++ ": 5,")) = None.
Proof. vm_compute. repeat split; reflexivity. Qed.

(** ** Hashing *)

Lemma update_chunks_message h f :
  message (update_chunks h f) = (message h ++ f)%list.
Proof.
  funelim (update_chunks h f).
  - destruct f; [now rewrite app_nil_r | discriminate].
  - rewrite H. simpl. rewrite <- Hread, <- app_assoc.
    now rewrite take_drop.
Qed.

(** ** Rows and hashes *)

Lemma has_file_hash_true h r : has_file_hash h r = true <-> file_hash r = Some h.
Proof. unfold has_file_hash. apply bool_decide_eq_true. Qed.

Lemma has_cloud_id_true c r : has_cloud_id c r = true <-> cloud_id r = Some c.
Proof. unfold has_cloud_id. apply bool_decide_eq_true. Qed.

Lemma find_has_file_hash_None h rows :
  find (has_file_hash h) rows = None <->
  forall r, r ∈ rows -> file_hash r <> Some h.
Proof.
  split.
  - intros Hnone r Hr Hh. apply list_elem_of_In in Hr.
    pose proof (find_none _ _ Hnone r Hr) as Hf.
    apply has_file_hash_true in Hh. congruence.
  - intros Hall. destruct (find (has_file_hash h) rows) as [r|] eqn:Hf; [|done].
    apply find_some in Hf as [Hin Hh]. apply has_file_hash_true in Hh.
    apply list_elem_of_In in Hin. now destruct (Hall r Hin).
Qed.

Lemma find_has_file_hash_Some h rows r :
  r ∈ rows -> file_hash r = Some h ->
  exists r', find (has_file_hash h) rows = Some r'.
Proof.
  intros Hr Hh. destruct (find (has_file_hash h) rows) as [r'|] eqn:Hf; [eauto|].
  rewrite find_has_file_hash_None in Hf. now destruct (Hf r Hr).
Qed.

Lemma find_app {A} (f : A -> bool) l1 l2 :
  find f (l1 ++ l2) = match find f l1 with Some x => Some x | None => find f l2 end.
Proof. induction l1 as [|x l1 IH]; simpl; [done|]. now destruct (f x). Qed.

Lemma count_hash_absent h rows :
  h ∉ omap file_hash rows -> count_hash h rows = 0%nat.
Proof.
  unfold count_hash. induction rows as [|x rows IH]; [done|].
  intros Hnot. simpl in *. destruct (has_file_hash h x) eqn:Hx.
  - apply has_file_hash_true in Hx. rewrite Hx in Hnot. set_solver.
  - apply IH. destruct (file_hash x); set_solver.
Qed.

Lemma count_hash_unique h rows r :
  hashes_unique rows -> r ∈ rows -> file_hash r = Some h ->
  count_hash h rows = 1%nat.
Proof.
  unfold hashes_unique, count_hash. induction rows as [|x rows IH]; intros Hnd Hr Hh.
  - inversion Hr.
  - simpl in *. destruct (has_file_hash h x) eqn:Hx.
    + apply has_file_hash_true in Hx. rewrite Hx in Hnd. simpl in Hnd.
      apply NoDup_cons in Hnd as [Hnot _].
      simpl. f_equal. now apply count_hash_absent.
    + assert (r ∈ rows) as Hr'.
      { apply elem_of_cons in Hr as [->|]; [|done].
        apply has_file_hash_true in Hh. congruence. }
      apply IH; [|done..].
      destruct (file_hash x); [now apply NoDup_cons in Hnd as [_ ?] | done].
Qed.

Lemma hashes_unique_snoc rows r :
  hashes_unique rows ->
  (forall h, file_hash r = Some h -> find (has_file_hash h) rows = None) ->
  hashes_unique (rows ++ [r]).
Proof.
  unfold hashes_unique. intros Hnd Hfresh. rewrite omap_app. simpl.
  destruct (file_hash r) as [h|] eqn:Hh; simpl; [|now rewrite app_nil_r].
  apply NoDup_app. split; [done|]. split; [|apply NoDup_singleton].
  intros h' Hin Hh'. apply list_elem_of_singleton in Hh' as ->.
  apply list_elem_of_omap in Hin as (r' & Hr' & Hrh).
  specialize (Hfresh h eq_refl). rewrite find_has_file_hash_None in Hfresh.
  now destruct (Hfresh r' Hr').
Qed.

Lemma hashes_unique_filter (P : file_row -> Prop) `{forall r, Decision (P r)} rows :
  hashes_unique rows -> hashes_unique (filter P rows).
Proof.
  unfold hashes_unique. induction rows as [|x rows IH]; [done|].
  intros Hnd. rewrite filter_cons.
  assert (NoDup (omap file_hash rows)) as Htl.
  { simpl in Hnd. destruct (file_hash x); [now apply NoDup_cons in Hnd|done]. }
  destruct (decide (P x)); [|now apply IH].
  simpl in *. destruct (file_hash x) as [h|]; [|now apply IH].
  apply NoDup_cons in Hnd as [Hnot _]. apply NoDup_cons. split; [|now apply IH].
  intros (r & [_ Hr]%list_elem_of_filter & Hh)%list_elem_of_omap.
  apply Hnot, list_elem_of_omap. eauto.
Qed.

Lemma hashes_unique_fmap (f : file_row -> file_row) rows :
  (forall r, file_hash (f r) = file_hash r) ->
  hashes_unique rows -> hashes_unique (f <$> rows).
Proof.
  intros Hf. unfold hashes_unique.
  assert (omap file_hash (f <$> rows) = omap file_hash rows) as E.
  { induction rows as [|x rows IH]; csimpl; [done|]. now rewrite Hf, IH. }
  now rewrite E.
Qed.

(** ** The order of [ORDER BY upload_date DESC] *)

Lemma string_leb_trans a b c :
  String.leb a b = true -> String.leb b c = true -> String.leb a c = true.
Proof.
  unfold String.leb. revert b c.
  induction a as [|x a IH]; intros [|y b] [|z c]; simpl; try done.
  unfold Ascii.compare.
  destruct (N.compare_spec (N_of_ascii x) (N_of_ascii y)) as [Hxy|Hxy|Hxy];
    destruct (N.compare_spec (N_of_ascii y) (N_of_ascii z)) as [Hyz|Hyz|Hyz];
    destruct (N.compare_spec (N_of_ascii x) (N_of_ascii z)) as [Hxz|Hxz|Hxz];
    try done; try lia.
  apply IH.
Qed.

Lemma text_leb_trans a b c :
  text_leb a b = true -> text_leb b c = true -> text_leb a c = true.
Proof.
  destruct a as [a|], b as [b|], c as [c|]; simpl; try done.
  apply string_leb_trans.
Qed.

Lemma text_leb_total a b : text_leb a b = true \/ text_leb b a = true.
Proof.
  destruct a as [a|], b as [b|]; simpl; auto. apply String.leb_total.
Qed.

#[global] Instance upload_date_desc_trans : Transitive upload_date_desc.
Proof.
  intros r1 r2 r3. unfold upload_date_desc. rewrite !Is_true_true.
  intros H12 H23. eapply text_leb_trans; eauto.
Qed.

#[global] Instance upload_date_desc_total : Total upload_date_desc.
Proof.
  intros r1 r2. unfold upload_date_desc. rewrite !Is_true_true.
  apply text_leb_total.
Qed.

Lemma find_filter_Some {A} (f : A -> bool) (P : A -> Prop)
    `{forall x, Decision (P x)} l x :
  find f l = Some x -> P x -> find f (filter P l) = Some x.
Proof.
  intros Hf HP. induction l as [|y l IH]; [done|].
  simpl in Hf. rewrite filter_cons. destruct (f y) eqn:Hy.
  - injection Hf as ->. rewrite decide_True by done. simpl. now rewrite Hy.
  - destruct (decide (P y)); [|now apply IH]. simpl. rewrite Hy. now apply IH.
Qed.

(** A row dated after all the others heads every listing. *)
Lemma newest_first rows rows1 r t :
  StronglySorted upload_date_desc rows1 ->
  rows1 ≡ₚ r :: rows ->
  upload_date r = Some t ->
  (forall x, x ∈ rows -> text_leb (Some t) (upload_date x) = false) ->
  head rows1 = Some r.
Proof.
  intros Hsorted Hperm Hdate Hlater.
  destruct rows1 as [|x tl].
  { apply Permutation_nil_l in Hperm. discriminate. }
  simpl. f_equal.
  assert (x ∈ r :: rows) as Hx by (rewrite <- Hperm; left).
  apply elem_of_cons in Hx as [->|Hx]; [done|].
  assert (r ∈ x :: tl) as Hr by (rewrite Hperm; left).
  apply elem_of_cons in Hr as [->|Hr]; [done|].
  apply StronglySorted_inv in Hsorted as [_ Hall].
  rewrite Forall_forall in Hall. specialize (Hall r Hr).
  unfold upload_date_desc in Hall. rewrite Hdate, (Hlater x Hx) in Hall.
  destruct Hall.
Qed.

Lemma hashes_unique_nil : hashes_unique [].
Proof. apply NoDup_nil_2. Qed.

Section Vault.
Context `{Platform}.

Lemma get_file_hash_returns p data w :
  disk w !! p = Some data ->
  _get_file_hash p w = Returns (MD5.hexdigest data) w.
Proof.
  intros Hp. unfold _get_file_hash, mbind, py_bind, read_bytes, mret, py_ret.
  rewrite Hp. unfold hexdigest. now rewrite update_chunks_message.
Qed.

Lemma get_file_hash_raises p w :
  disk w !! p = None ->
  _get_file_hash p w = Raises (OSError "ENOENT") w.
Proof.
  intros Hp. unfold _get_file_hash, mbind, py_bind, read_bytes. now rewrite Hp.
Qed.

Lemma world_eta w :
  {| disk := disk w; files := files w; sqlite_sequence := sqlite_sequence w |} = w.
Proof. now destruct w. Qed.

(** *** [upload_file], case by case *)

Lemma upload_file_missing self p name u t1 t2 w :
  disk w !! p = None ->
  upload_file self p name u t1 t2 w = Raises (Exception "File does not exist") w.
Proof.
  intros Hp. unfold upload_file, mbind, py_bind, path_exists.
  rewrite Hp. rewrite bool_decide_eq_false_2; [reflexivity | ].
  intros [x Hx]; discriminate.
Qed.

Lemma upload_file_existing self p name u t1 t2 w data r :
  disk w !! p = Some data ->
  find (has_file_hash (MD5.hexdigest data)) (files w) = Some r ->
  upload_file self p name u t1 t2 w
  = Raises (Exception "File already exists with same content") w.
Proof.
  intros Hp Hr. unfold upload_file, mbind, py_bind, path_exists.
  rewrite Hp. rewrite bool_decide_eq_true_2 by eauto. simpl.
  rewrite (get_file_hash_returns _ _ _ Hp).
  unfold with_connect, select_id_where_file_hash, mbind, py_bind.
  rewrite Hr. simpl. unfold raise. now rewrite world_eta.
Qed.

Lemma upload_file_fresh self p name u t1 t2 w data :
  disk w !! p = Some data ->
  find (has_file_hash (MD5.hexdigest data)) (files w) = None ->
  let new_id := (Z.max (sqlite_sequence w) (max_rowid (files w)) + 1)%Z in
  let shown := if truthy name then default EmptyString name else Path_name p in
  upload_file self p name u t1 t2 w
  = Returns (u, shown)
      {| disk := disk w;
         files := (files w ++
           [{| id := new_id;
               local_name := Path_name p;
               cloud_id := Some u;
               cloud_name := Some shown;
               file_size := Some (Z.of_nat (length data));
               file_mime := Some (octet_stream (guess_type p));
               file_hash := Some (MD5.hexdigest data);
               upload_date := Some t1;
               last_sync := Some t2;
               local_path := Some p;
               is_synced := Some 0%Z;
               file_data := Some data |}])%list;
         sqlite_sequence := new_id |}.
Proof.
  intros Hp Hr. unfold upload_file, mbind, py_bind, path_exists.
  rewrite Hp. rewrite bool_decide_eq_true_2 by eauto. simpl.
  rewrite (get_file_hash_returns _ _ _ Hp).
  unfold with_connect, select_id_where_file_hash, mbind, py_bind.
  rewrite Hr. simpl. unfold read_bytes. rewrite Hp. reflexivity.
Qed.

(** The hashes stay unique under every upload. *)
Lemma upload_file_hashes_unique self p name u t1 t2 w :
  hashes_unique (files w) ->
  hashes_unique (files (final_world (upload_file self p name u t1 t2 w))).
Proof.
  intros Hu. destruct (disk w !! p) as [data|] eqn:Hp.
  - destruct (find (has_file_hash (MD5.hexdigest data)) (files w)) as [r|] eqn:Hr.
    + now rewrite (upload_file_existing _ _ _ _ _ _ _ _ _ Hp Hr).
    + rewrite (upload_file_fresh _ _ _ _ _ _ _ _ Hp Hr). simpl.
      apply hashes_unique_snoc; [done|]. simpl. now intros h [= <-].
  - now rewrite (upload_file_missing _ _ _ _ _ _ _ Hp).
Qed.

(** What a successful upload did. *)
Lemma upload_file_returns_inv self p name u t1 t2 w ret w' :
  upload_file self p name u t1 t2 w = Returns ret w' ->
  exists data r,
    disk w !! p = Some data
    /\ find (has_file_hash (MD5.hexdigest data)) (files w) = None
    /\ disk w' = disk w
    /\ files w' = (files w ++ [r])%list
    /\ cloud_id r = Some ret.1
    /\ file_data r = Some data
    /\ file_hash r = Some (MD5.hexdigest data)
    /\ file_size r = Some (Z.of_nat (length data))
    /\ upload_date r = Some t1.
Proof.
  intros Hup. destruct (disk w !! p) as [data|] eqn:Hp.
  - destruct (find (has_file_hash (MD5.hexdigest data)) (files w)) as [r|] eqn:Hr.
    + now rewrite (upload_file_existing _ _ _ _ _ _ _ _ _ Hp Hr) in Hup.
    + rewrite (upload_file_fresh _ _ _ _ _ _ _ _ Hp Hr) in Hup.
      injection Hup as <- <-. eexists _, _. simpl. repeat split; done.
  - now rewrite (upload_file_missing _ _ _ _ _ _ _ Hp) in Hup.
Qed.

(** C10: every successful [upload_file] appends one row whose [file_data] is
    the full content of the source file and whose [file_hash] is the MD5 hex
    digest of that content. *)
Theorem upload_file_blob_and_hash self p name u t1 t2 w ret w' :
  upload_file self p name u t1 t2 w = Returns ret w' ->
  exists data r,
    disk w !! p = Some data
    /\ files w' = (files w ++ [r])%list
    /\ file_data r = Some data
    /\ file_hash r = Some (MD5.hexdigest data)
    /\ file_size r = Some (Z.of_nat (length data)).
Proof.
  intros Hup.
  destruct (upload_file_returns_inv _ _ _ _ _ _ _ _ _ Hup)
    as (data & r & Hp & _ & _ & Hfiles & _ & Hdata & Hhash & Hsize & _).
  now exists data, r.
Qed.

(** C1: when the content of the file hashes to the [file_hash] of a stored
    row, [upload_file] raises "File already exists with same content" whatever
    the path and the display name; the call leaves the table as it was, no row
    inserted and none changed, so that in a table with unique hashes exactly
    one row carries that hash afterwards. *)
Theorem upload_file_duplicate_rejected self p name u t1 t2 w data r :
  disk w !! p = Some data ->
  r ∈ files w ->
  file_hash r = Some (MD5.hexdigest data) ->
  upload_file self p name u t1 t2 w
  = Raises (Exception "File already exists with same content") w
  /\ files (final_world (upload_file self p name u t1 t2 w)) = files w
  /\ (hashes_unique (files w) ->
      count_hash (MD5.hexdigest data)
        (files (final_world (upload_file self p name u t1 t2 w))) = 1%nat).
Proof.
  intros Hp Hr Hh.
  destruct (find_has_file_hash_Some _ _ _ Hr Hh) as [r' Hf].
  rewrite (upload_file_existing _ _ _ _ _ _ _ _ _ Hp Hf).
  split; [done|]. split; [done|].
  intros Hu. simpl. eapply count_hash_unique; eauto.
Qed.

(** Uploading the same content twice in a row, from any table: the second call
    is rejected and afterwards one row carries the hash. *)
Lemma upload_file_twice self p1 n1 u1 t1 t1' p2 n2 u2 t2 t2' w ret w1 d2 data :
  disk w !! p1 = Some data ->
  d2 !! p2 = Some data ->
  upload_file self p1 n1 u1 t1 t1' w = Returns ret w1 ->
  upload_file self p2 n2 u2 t2 t2' (with_disk d2 w1)
  = Raises (Exception "File already exists with same content") (with_disk d2 w1)
  /\ count_hash (MD5.hexdigest data) (files w1) = 1%nat.
Proof.
  intros Hp1 Hp2 Hup.
  destruct (upload_file_returns_inv _ _ _ _ _ _ _ _ _ Hup)
    as (data' & r & Hp & Hnew & _ & Hfiles & _ & _ & Hhash & _).
  assert (data' = data) as -> by congruence.
  assert (has_file_hash (MD5.hexdigest data) r = true) as Hr
    by now apply has_file_hash_true.
  split.
  - eapply upload_file_existing; [done|]. simpl.
    rewrite Hfiles, find_app, Hnew. simpl. now rewrite Hr.
  - rewrite Hfiles. unfold count_hash.
    rewrite List.filter_app, length_app. simpl. rewrite Hr.
    fold (count_hash (MD5.hexdigest data) (files w)).
    rewrite count_hash_absent; [done|].
    rewrite find_has_file_hash_None in Hnew.
    intros (r0 & Hin & Hh)%list_elem_of_omap. now destruct (Hnew r0 Hin).
Qed.

(** *** [download_file], case by case *)

Lemma find_has_cloud_id_Some c rows r :
  find (has_cloud_id c) rows = Some r -> r ∈ rows /\ cloud_id r = Some c.
Proof.
  intros [Hin Hc]%find_some. split; [now apply list_elem_of_In|].
  now apply has_cloud_id_true.
Qed.

Lemma download_file_not_found self c dst now room w :
  find (has_cloud_id c) (files w) = None ->
  download_file self c dst now room w
  = Raises (Exception "File record not found") w.
Proof.
  intros Hf. unfold download_file. simpl.
  unfold with_connect, mbind, py_bind, select_path_data_where_cloud_id.
  rewrite Hf. simpl. unfold raise. now rewrite world_eta.
Qed.

Lemma write_bytes_eq p data room w :
  write_bytes p data room w
  = let w' := with_disk (<[p := accepted room data]> (disk w)) w in
    if (length (accepted room data) <? length data)%nat
    then Raises (OSError "ENOSPC") w' else Returns tt w'.
Proof.
  unfold write_bytes, with_disk. simpl. now rewrite insert_insert_eq.
Qed.

(** The blob is there: it is written out and the table is not touched. *)
Lemma download_file_blob self c dst now room w r blob :
  find (has_cloud_id c) (files w) = Some r ->
  file_data r = Some blob ->
  download_file self c dst now room w
  = let w' := with_disk (<[dst := accepted room blob]> (disk w)) w in
    if (length (accepted room blob) <? length blob)%nat
    then Raises (OSError "ENOSPC") w' else Returns true w'.
Proof.
  intros Hf Hb. unfold download_file. simpl.
  unfold with_connect, mbind, py_bind, select_path_data_where_cloud_id.
  rewrite Hf. simpl. rewrite Hb. unfold os_makedirs. simpl.
  rewrite write_bytes_eq. simpl.
  destruct (length (accepted room blob) <? length blob)%nat; reflexivity.
Qed.

(** No blob, but the original file is there: it is copied out and, when the
    copy went through, stored in every row with this [cloud_id]. *)
Lemma download_file_backfill self c dst now room w r data :
  find (has_cloud_id c) (files w) = Some r ->
  file_data r = None ->
  fetch_source w r = Some data ->
  download_file self c dst now room w
  = let d' := <[dst := accepted room data]> (disk w) in
    if (length (accepted room data) <? length data)%nat
    then Raises (OSError "ENOSPC") (with_disk d' w)
    else Returns true
           {| disk := d';
              files := (fun r => if has_cloud_id c r
                                 then set_file_data data now r else r) <$> files w;
              sqlite_sequence := sqlite_sequence w |}.
Proof.
  intros Hf Hb Hsrc. unfold fetch_source in Hsrc. rewrite Hb in Hsrc.
  unfold download_file. simpl.
  unfold with_connect, mbind, py_bind, select_path_data_where_cloud_id.
  rewrite Hf. simpl. rewrite Hb.
  destruct (truthy (local_path r)); [|discriminate].
  unfold path_exists. rewrite Hsrc. rewrite bool_decide_eq_true_2 by eauto.
  unfold read_bytes. rewrite Hsrc. unfold os_makedirs. simpl.
  rewrite write_bytes_eq. simpl.
  destruct (length (accepted room data) <? length data)%nat; reflexivity.
Qed.

(** Neither blob nor original file. *)
Lemma download_file_no_source self c dst now room w r :
  find (has_cloud_id c) (files w) = Some r ->
  fetch_source w r = None ->
  download_file self c dst now room w
  = Raises (Exception "This entry has no stored file data and the original path no longer exists. Re-upload the file to store it in the vault.") w.
Proof.
  intros Hf Hsrc. unfold fetch_source in Hsrc.
  destruct (file_data r) as [blob|] eqn:Hb; [discriminate|].
  unfold download_file. simpl.
  unfold with_connect, mbind, py_bind, select_path_data_where_cloud_id.
  rewrite Hf. simpl. rewrite Hb.
  destruct (truthy (local_path r)).
  - unfold path_exists. rewrite Hsrc. rewrite bool_decide_eq_false_2.
    + unfold raise. now rewrite world_eta.
    + now intros [x Hx].
  - simpl. unfold raise. now rewrite world_eta.
Qed.

Lemma find_has_cloud_id_fmap c (f : file_row -> file_row) rows :
  (forall r, cloud_id (f r) = cloud_id r) ->
  find (has_cloud_id c) (f <$> rows) = f <$> find (has_cloud_id c) rows.
Proof.
  intros Hf. induction rows as [|x rows IH]; simpl; [done|].
  unfold has_cloud_id at 1 3. rewrite Hf.
  destruct (bool_decide (cloud_id x = Some c)); [done | apply IH].
Qed.

(** C7: a fetch of a row whose blob is there changes no row, whether the write
    to the destination goes through or not. *)
Theorem download_file_blob_frame self c dst now room w r blob :
  find (has_cloud_id c) (files w) = Some r ->
  file_data r = Some blob ->
  files (final_world (download_file self c dst now room w)) = files w
  /\ sqlite_sequence (final_world (download_file self c dst now room w))
     = sqlite_sequence w.
Proof.
  intros Hf Hb. rewrite (download_file_blob _ _ _ _ _ _ _ _ Hf Hb). simpl.
  destruct (length (accepted room blob) <? length blob)%nat; done.
Qed.

(** C4: a fetch of a row with no blob whose [local_path] names no file on disk
    raises and leaves the world, hence the row, as it was. *)
Theorem download_file_unrecoverable self c dst now room w r :
  find (has_cloud_id c) (files w) = Some r ->
  file_data r = None ->
  (forall p, local_path r = Some p -> disk w !! p = None) ->
  download_file self c dst now room w
  = Raises (Exception "This entry has no stored file data and the original path no longer exists. Re-upload the file to store it in the vault.") w.
Proof.
  intros Hf Hb Hgone. apply (download_file_no_source _ _ _ _ _ _ r); [done|].
  unfold fetch_source. rewrite Hb.
  destruct (local_path r) as [p|] eqn:Hp; simpl; [|done].
  rewrite (Hgone p eq_refl). now destruct p.
Qed.

(** *** A stored blob stays

    The row a [cloud_id] finds, once it holds a blob, is found unchanged
    after every upload, every fetch, and every delete of another row. *)

Lemma upload_file_keeps_row self p name u t1 t2 w c r :
  find (has_cloud_id c) (files w) = Some r ->
  find (has_cloud_id c) (files (final_world (upload_file self p name u t1 t2 w)))
  = Some r.
Proof.
  intros Hf. destruct (disk w !! p) as [data|] eqn:Hp.
  - destruct (find (has_file_hash (MD5.hexdigest data)) (files w)) as [r'|] eqn:Hr.
    + now rewrite (upload_file_existing _ _ _ _ _ _ _ _ _ Hp Hr).
    + rewrite (upload_file_fresh _ _ _ _ _ _ _ _ Hp Hr). simpl.
      now rewrite find_app, Hf.
  - now rewrite (upload_file_missing _ _ _ _ _ _ _ Hp).
Qed.

Lemma download_file_keeps_row self c' dst now room w c r blob :
  find (has_cloud_id c) (files w) = Some r ->
  file_data r = Some blob ->
  find (has_cloud_id c)
    (files (final_world (download_file self c' dst now room w))) = Some r.
Proof.
  intros Hf Hb. destruct (find (has_cloud_id c') (files w)) as [r'|] eqn:Hf'.
  - destruct (fetch_source w r') as [content|] eqn:Hsrc.
    + destruct (file_data r') as [blob'|] eqn:Hb'.
      * rewrite (download_file_blob _ _ _ _ _ _ _ _ Hf' Hb'). simpl.
        now destruct (length (accepted room blob') <? length blob')%nat.
      * rewrite (download_file_backfill _ _ _ _ _ _ _ _ Hf' Hb' Hsrc). simpl.
        destruct (length (accepted room content) <? length content)%nat; [done|].
        simpl. rewrite find_has_cloud_id_fmap, Hf.
        -- simpl. destruct (has_cloud_id c' r) eqn:Hc'; [|done].
           apply has_cloud_id_true in Hc'.
           destruct (find_has_cloud_id_Some _ _ _ Hf) as [_ Hc].
           assert (c = c') as -> by congruence.
           congruence.
        -- intros r0. now destruct (has_cloud_id c' r0).
    + now rewrite (download_file_no_source _ _ _ _ _ _ _ Hf' Hsrc).
  - now rewrite (download_file_not_found _ _ _ _ _ _ Hf').
Qed.

Lemma get_local_files_eq self w :
  get_local_files self w = Returns (merge_sort upload_date_desc (files w)) w.
Proof. reflexivity. Qed.

Lemma remove_local_file_eq self i w :
  remove_local_file self i w
  = Returns tt {| disk := disk w;
                  files := filter (fun r => id r <> i) (files w);
                  sqlite_sequence := sqlite_sequence w |}.
Proof. reflexivity. Qed.

Lemma remove_local_file_keeps_row self i w c r :
  find (has_cloud_id c) (files w) = Some r ->
  id r <> i ->
  find (has_cloud_id c) (files (final_world (remove_local_file self i w)))
  = Some r.
Proof.
  intros Hf Hi. rewrite remove_local_file_eq. simpl.
  now apply find_filter_Some.
Qed.

(** Every event but the deletion of the row keeps the row a [cloud_id] finds,
    once it holds a blob. *)
Lemma after_event_keeps_row self w e c r blob :
  find (has_cloud_id c) (files w) = Some r ->
  file_data r = Some blob ->
  e <> Remove (id r) ->
  find (has_cloud_id c) (files (after_event self w e)) = Some r.
Proof.
  intros Hf Hb He.
  destruct e as [p name u t1 t2|c' dst now room| |i|d]; cbn [after_event].
  - now apply upload_file_keeps_row.
  - now apply (download_file_keeps_row _ _ _ _ _ _ _ _ blob).
  - done.
  - apply remove_local_file_keeps_row; [done|]. congruence.
  - done.
Qed.

Lemma after_events_keeps_row self w es c r blob :
  find (has_cloud_id c) (files w) = Some r ->
  file_data r = Some blob ->
  Remove (id r) ∉ es ->
  find (has_cloud_id c) (files (after_events self w es)) = Some r.
Proof.
  unfold after_events. revert w. induction es as [|e es IH]; intros w Hf Hb Hes.
  - done.
  - simpl. apply IH; [|done|].
    + apply (after_event_keeps_row _ _ _ _ _ blob); [done..|].
      intros ->. apply Hes. left.
    + intros Hin. apply Hes. now right.
Qed.

(** C2: let [upload_file] return on a file of content [data], with a [uuid4]
    that no stored row has as its [cloud_id], and let [r] be the row it added.
    After any history in which that row is not deleted (uploads, fetches,
    listings, deletions of other rows, changes of the disk), [download_file] on
    the id the upload returned gives [True] and leaves exactly [data] at the
    destination, the table untouched (the bytes go out in full: [room] is
    [None]). *)
Theorem download_file_round_trip
    self p name u t1 t2 w ret w1 data r es dst now :
  disk w !! p = Some data ->
  find (has_cloud_id u) (files w) = None ->
  upload_file self p name u t1 t2 w = Returns ret w1 ->
  files w1 = (files w ++ [r])%list ->
  Remove (id r) ∉ es ->
  exists w3,
    download_file self ret.1 dst now None (after_events self w1 es)
    = Returns true w3
    /\ disk w3 !! dst = Some data
    /\ files w3 = files (after_events self w1 es).
Proof.
  intros Hp Hfresh Hup Hfiles Hes.
  destruct (upload_file_returns_inv _ _ _ _ _ _ _ _ _ Hup)
    as (data' & r' & Hp' & _ & _ & Hfiles' & Hid & Hdata & _).
  assert (data' = data) as -> by congruence.
  assert (r' = r) as ->.
  { rewrite Hfiles in Hfiles'. now apply app_inj_tail in Hfiles' as [_ ->]. }
  assert (ret.1 = u) as Hret.
  { destruct (find (has_file_hash (MD5.hexdigest data)) (files w)) eqn:Hr.
    - now rewrite (upload_file_existing _ _ _ _ _ _ _ _ _ Hp Hr) in Hup.
    - rewrite (upload_file_fresh _ _ _ _ _ _ _ _ Hp Hr) in Hup.
      now injection Hup as <- _. }
  rewrite Hret in *.
  assert (find (has_cloud_id u) (files w1) = Some r) as Hf.
  { rewrite Hfiles, find_app, Hfresh. simpl.
    apply has_cloud_id_true in Hid. now rewrite Hid. }
  pose proof (after_events_keeps_row self w1 es _ _ _ Hf Hdata Hes) as Hlater.
  eexists. rewrite (download_file_blob _ _ _ _ _ _ _ data Hlater Hdata).
  simpl. rewrite Nat.ltb_irrefl. split; [done|]. simpl.
  now rewrite lookup_insert_eq.
Qed.

(** C3: a fetch of a row with no blob whose [local_path] names a file copies
    that file to the destination, stores its bytes as the blob of the row and
    sets [last_sync]; a later fetch, on a disk [d2] where the original file is
    gone, returns [True] again and writes the same bytes, now from the blob
    (the bytes go out in full: [room] is [None]). *)
Theorem download_file_backfill_persists
    self c dst now w r p data d2 dst2 now2 :
  find (has_cloud_id c) (files w) = Some r ->
  file_data r = None ->
  local_path r = Some p ->
  p <> EmptyString ->
  disk w !! p = Some data ->
  d2 !! p = None ->
  exists w1 w3,
    download_file self c dst now None w = Returns true w1
    /\ disk w1 !! dst = Some data
    /\ find (has_cloud_id c) (files w1) = Some (set_file_data data now r)
    /\ download_file self c dst2 now2 None (with_disk d2 w1) = Returns true w3
    /\ disk w3 !! dst2 = Some data.
Proof.
  intros Hf Hb Hp Hne Hdata Hgone.
  assert (fetch_source w r = Some data) as Hsrc.
  { unfold fetch_source. rewrite Hb, Hp. simpl. now destruct p. }
  rewrite (download_file_backfill _ _ _ _ _ _ _ _ Hf Hb Hsrc). simpl.
  rewrite Nat.ltb_irrefl.
  set (upd := fun r0 => if has_cloud_id c r0 then set_file_data data now r0 else r0).
  assert (find (has_cloud_id c) (upd <$> files w) = Some (set_file_data data now r))
    as Hf1.
  { rewrite find_has_cloud_id_fmap, Hf.
    - simpl. unfold upd. apply find_has_cloud_id_Some in Hf as [_ Hc].
      apply has_cloud_id_true in Hc. now rewrite Hc.
    - intros r0. unfold upd. now destruct (has_cloud_id c r0). }
  eexists _, _. split; [done|]. simpl. split; [now rewrite lookup_insert_eq|].
  split; [done|].
  erewrite (download_file_blob _ _ _ _ _ _ (set_file_data data now r) data);
    [|exact Hf1|reflexivity].
  simpl. rewrite Nat.ltb_irrefl. split; [done|]. simpl.
  now rewrite lookup_insert_eq.
Qed.

(** C8, as the code has it: the destination is written in place. It ends up
    holding what the device took of the bytes to write; when that is all of
    them the call returns [True], and when it is fewer the call raises, the
    truncated file stays and no row is changed. *)
Theorem download_file_writes_in_place self c dst now room w r content :
  find (has_cloud_id c) (files w) = Some r ->
  fetch_source w r = Some content ->
  exists w',
    disk w' !! dst = Some (accepted room content)
    /\ (length (accepted room content) = length content ->
        download_file self c dst now room w = Returns true w')
    /\ ((length (accepted room content) < length content)%nat ->
        download_file self c dst now room w = Raises (OSError "ENOSPC") w'
        /\ files w' = files w).
Proof.
  intros Hf Hsrc. destruct (file_data r) as [blob|] eqn:Hb.
  - assert (blob = content) as ->.
    { unfold fetch_source in Hsrc. rewrite Hb in Hsrc. now injection Hsrc. }
    rewrite (download_file_blob _ _ _ _ _ _ _ _ Hf Hb). simpl.
    exists (with_disk (<[dst := accepted room content]> (disk w)) w).
    split; [apply lookup_insert_eq|]. split.
    + intros ->. now rewrite Nat.ltb_irrefl.
    + intros Hlt. apply Nat.ltb_lt in Hlt. now rewrite Hlt.
  - rewrite (download_file_backfill _ _ _ _ _ _ _ _ Hf Hb Hsrc). simpl.
    destruct (length (accepted room content) <? length content)%nat eqn:Hlt.
    + exists (with_disk (<[dst := accepted room content]> (disk w)) w).
      split; [apply lookup_insert_eq|]. split; [|done].
      apply Nat.ltb_lt in Hlt. lia.
    + eexists {| disk := <[dst := accepted room content]> (disk w);
                 files := _; sqlite_sequence := _ |}.
      split; [apply lookup_insert_eq|]. split; [done|].
      apply Nat.ltb_ge in Hlt. lia.
Qed.

(** The hashes stay unique under every fetch and every delete. *)
Lemma download_file_hashes_unique self c dst now room w :
  hashes_unique (files w) ->
  hashes_unique (files (final_world (download_file self c dst now room w))).
Proof.
  intros Hu. destruct (find (has_cloud_id c) (files w)) as [r|] eqn:Hf.
  - destruct (fetch_source w r) as [content|] eqn:Hsrc.
    + destruct (file_data r) as [blob|] eqn:Hb.
      * rewrite (download_file_blob _ _ _ _ _ _ _ _ Hf Hb). simpl.
        now destruct (length (accepted room blob) <? length blob)%nat.
      * rewrite (download_file_backfill _ _ _ _ _ _ _ _ Hf Hb Hsrc). simpl.
        destruct (length (accepted room content) <? length content)%nat; [done|].
        simpl. apply hashes_unique_fmap; [|done].
        intros r0. now destruct (has_cloud_id c r0).
    + now rewrite (download_file_no_source _ _ _ _ _ _ _ Hf Hsrc).
  - now rewrite (download_file_not_found _ _ _ _ _ _ Hf).
Qed.

(** *** Listing and deleting *)

Lemma remove_local_file_hashes_unique self i w :
  hashes_unique (files w) ->
  hashes_unique (files (final_world (remove_local_file self i w))).
Proof. intros Hu. rewrite remove_local_file_eq. now apply hashes_unique_filter. Qed.

(** The hashes stay unique along every history. *)
Lemma after_events_hashes_unique self w es :
  hashes_unique (files w) -> hashes_unique (files (after_events self w es)).
Proof.
  unfold after_events. revert w. induction es as [|e es IH]; intros w Hu; [done|].
  simpl. apply IH.
  destruct e as [p name u t1 t2|c' dst now room| |i|d]; cbn [after_event].
  - now apply upload_file_hashes_unique.
  - now apply download_file_hashes_unique.
  - done.
  - now apply remove_local_file_hashes_unique.
  - done.
Qed.

(** C6: [get_local_files] returns the rows of the table, all of them and
    nothing else, latest [upload_date] first, and leaves the world as it is,
    so that a second call returns the same list; a row [upload_file] has
    added is in the list and a row [remove_local_file] has deleted is not. *)
Theorem get_local_files_all_sorted self w :
  exists rows,
    get_local_files self w = Returns rows w
    /\ rows ≡ₚ files w
    /\ StronglySorted upload_date_desc rows
    /\ get_local_files self (final_world (get_local_files self w))
       = get_local_files self w
    /\ (forall p name u t1 t2 ret w1,
          upload_file self p name u t1 t2 w = Returns ret w1 ->
          exists r rows1,
            get_local_files self w1 = Returns rows1 w1
            /\ cloud_id r = Some ret.1
            /\ rows1 ≡ₚ r :: rows
            /\ ((forall x, x ∈ files w ->
                            text_leb (Some t1) (upload_date x) = false) ->
                head rows1 = Some r))
    /\ (forall i w1,
          remove_local_file self i w = Returns tt w1 ->
          exists rows1,
            get_local_files self w1 = Returns rows1 w1
            /\ rows1 ≡ₚ filter (fun r => id r <> i) rows).
Proof.
  exists (merge_sort upload_date_desc (files w)).
  split; [apply get_local_files_eq|].
  split; [apply merge_sort_Permutation|].
  split; [apply StronglySorted_merge_sort; apply _|].
  split; [done|]. split.
  - intros p name u t1 t2 ret w1 Hup.
    destruct (upload_file_returns_inv _ _ _ _ _ _ _ _ _ Hup)
      as (data & r & _ & _ & _ & Hfiles & Hid & _ & _ & _ & Hdate).
    exists r, (merge_sort upload_date_desc (files w1)).
    assert (merge_sort upload_date_desc (files w1) ≡ₚ r :: files w) as Hperm.
    { rewrite merge_sort_Permutation, Hfiles. now rewrite Permutation_app_comm. }
    split; [apply get_local_files_eq|]. split; [done|].
    split; [now rewrite Hperm, merge_sort_Permutation|].
    intros Hlater. eapply newest_first; eauto.
    apply StronglySorted_merge_sort; apply _.
  - intros i w1 Hrm. rewrite remove_local_file_eq in Hrm. injection Hrm as <-.
    eexists. split; [apply get_local_files_eq|]. simpl.
    now rewrite !merge_sort_Permutation.
Qed.

(** C5, as the code has it: [remove_local_file] never raises. It returns with
    the rows of the given [id] gone from the table and from what
    [get_local_files] lists, a second call with the same [id] returns again and
    changes nothing, and a call with an [id] no row has changes nothing. *)
Theorem remove_local_file_always_returns self i w :
  exists w1 rows,
    remove_local_file self i w = Returns tt w1
    /\ disk w1 = disk w
    /\ files w1 = filter (fun r => id r <> i) (files w)
    /\ get_local_files self w1 = Returns rows w1
    /\ (forall r, r ∈ rows <-> r ∈ files w /\ id r <> i)
    /\ remove_local_file self i w1 = Returns tt w1
    /\ ((forall r, r ∈ files w -> id r <> i) -> w1 = w).
Proof.
  eexists _, _. split; [apply remove_local_file_eq|]. simpl.
  split; [done|]. split; [done|].
  split; [apply get_local_files_eq|]. simpl. split; [|split].
  - intros r. rewrite merge_sort_Permutation, list_elem_of_filter. tauto.
  - rewrite remove_local_file_eq. simpl. f_equal. f_equal.
    rewrite list_filter_filter. apply list_filter_iff. tauto.
  - intros Hall. destruct w as [d rows s]. simpl in *. f_equal.
    induction rows as [|x rows IH]; [done|].
    rewrite filter_cons_True by (apply Hall; left).
    f_equal. apply IH. intros r Hr. apply Hall. now right.
Qed.

(** *** Loading the configuration *)

(** C9: without a settings file, [_load_config] writes the defaults to it and
    returns them; with a settings file that holds a JSON object, it returns the
    object's keys with their values from the file and the other keys of the
    defaults with their default values, and leaves the file alone. A settings
    file that does not hold a JSON object has no key to keep: it is written
    anew with the defaults, which are returned. *)
Theorem load_config_defaults db w :
  (disk w !! config_path db = None ->
   _load_config db None w
   = Returns default_config
       (with_disk (<[config_path db := json_dump (PDict default_config)]> (disk w)) w))
  /\ (forall text d room,
        disk w !! config_path db = Some text ->
        json_load text = Some (PDict d) ->
        exists cfg,
          _load_config db room w = Returns cfg w
          /\ (forall k v, d !! k = Some v -> cfg !! k = Some v)
          /\ (forall k, d !! k = None -> cfg !! k = default_config !! k))
  /\ (forall text,
        disk w !! config_path db = Some text ->
        (forall d, json_load text <> Some (PDict d)) ->
        _load_config db None w
        = Returns default_config
            (with_disk (<[config_path db := json_dump (PDict default_config)]> (disk w)) w)).
Proof.
  split; [|split].
  - intros Hnone. unfold _load_config, mbind, py_bind, path_exists.
    rewrite Hnone. rewrite bool_decide_eq_false_2 by (now intros [x Hx]).
    simpl. rewrite write_bytes_eq. simpl. now rewrite Nat.ltb_irrefl.
  - intros text d room Htext Hload. exists (d ∪ default_config). split; [|split].
    + unfold _load_config, mbind, py_bind, path_exists.
      rewrite Htext. rewrite bool_decide_eq_true_2 by eauto.
      unfold read_bytes. rewrite Htext, Hload. reflexivity.
    + intros k v Hk. now apply lookup_union_Some_l.
    + intros k Hk. now apply lookup_union_r.
  - intros text Htext Hbad. unfold _load_config, mbind, py_bind, path_exists.
    rewrite Htext. rewrite bool_decide_eq_true_2 by eauto.
    unfold read_bytes. rewrite Htext.
    destruct (json_load text) as [[| | | | |d]|] eqn:Hl;
      try (simpl; rewrite write_bytes_eq; simpl; now rewrite Nat.ltb_irrefl).
    now destruct (Hbad d).
Qed.

End Vault.

(** ** The model at work on the sample platform *)

Example sample_scenario :
  Sample.vault
  = {| disk := disk Sample.home; files := [Sample.digits_row];
       sqlite_sequence := 1 |}
  /\ (exists rows, get_local_files Sample.storage Sample.vault
                   = Returns rows Sample.vault /\ length rows = 1%nat)
  /\ (exists w, download_file Sample.storage Sample.uuid Sample.downloads
                  "2024-05-02T09:00:00" None Sample.vault = Returns true w
                /\ disk w !! Sample.downloads = Some Sample.digits)
  /\ (exists w, remove_local_file Sample.storage 1 Sample.vault = Returns tt w
                /\ get_local_files Sample.storage w = Returns [] w).
Proof.
  split; [|split; [|split]].
  - vm_compute. reflexivity.
  - eexists. vm_compute. split; reflexivity.
  - eexists. split; vm_compute; reflexivity.
  - eexists. split; vm_compute; reflexivity.
Qed.

(** ** The theorems at concrete inputs *)

Lemma upload_file_blob_and_hash_witness :
  exists data r,
    disk Sample.home !! Sample.digits_txt = Some data
    /\ files Sample.vault = (files Sample.home ++ [r])%list
    /\ file_data r = Some data
    /\ file_hash r = Some (MD5.hexdigest data)
    /\ file_size r = Some (Z.of_nat (length data)).
Proof.
  apply (upload_file_blob_and_hash Sample.storage Sample.digits_txt None
           Sample.uuid "2024-05-01T10:00:00" "2024-05-01T10:00:00.000012"
           Sample.home (Sample.uuid, "digits.txt")).
  vm_compute. reflexivity.
Defined.

Lemma upload_file_duplicate_rejected_witness :
  upload_file Sample.storage "/tmp/copy.bin" (Some "renamed") "another-uuid"
    "2024-05-03T10:00:00" "2024-05-03T10:00:00" Sample.vault_with_copy
  = Raises (Exception "File already exists with same content")
      Sample.vault_with_copy
  /\ count_hash (MD5.hexdigest Sample.digits)
       (files (final_world
          (upload_file Sample.storage "/tmp/copy.bin" (Some "renamed")
             "another-uuid" "2024-05-03T10:00:00" "2024-05-03T10:00:00"
             Sample.vault_with_copy))) = 1%nat.
Proof.
  destruct (upload_file_duplicate_rejected Sample.storage "/tmp/copy.bin"
              (Some "renamed") "another-uuid" "2024-05-03T10:00:00"
              "2024-05-03T10:00:00" Sample.vault_with_copy Sample.digits
              Sample.digits_row) as (Hraises & _ & Hone).
  - vm_compute. reflexivity.
  - vm_compute. left.
  - vm_compute. reflexivity.
  - split; [exact Hraises|]. apply Hone. vm_compute. apply NoDup_singleton.
Defined.

Lemma download_file_round_trip_witness :
  exists w3,
    download_file Sample.storage Sample.uuid Sample.downloads
      "2024-05-02T09:00:00" None
      (after_events Sample.storage Sample.vault Sample.history)
    = Returns true w3
    /\ disk w3 !! Sample.downloads = Some Sample.digits
    /\ files w3
       = files (after_events Sample.storage Sample.vault Sample.history).
Proof.
  apply (download_file_round_trip Sample.storage Sample.digits_txt None
           Sample.uuid "2024-05-01T10:00:00" "2024-05-01T10:00:00.000012"
           Sample.home (Sample.uuid, "digits.txt") Sample.vault Sample.digits
           Sample.digits_row Sample.history Sample.downloads
           "2024-05-02T09:00:00").
  - vm_compute. reflexivity.
  - vm_compute. reflexivity.
  - vm_compute. reflexivity.
  - vm_compute. reflexivity.
  - unfold Sample.history. rewrite !elem_of_cons, elem_of_nil.
    intros [Hin|[Hin|[Hin|[Hin|[]]]]]; discriminate Hin.
Defined.

Lemma download_file_backfill_persists_witness :
  exists w1 w3,
    download_file Sample.storage "legacy-1" "/home/u/Downloads/notes.txt"
      "2024-05-02T09:00:00" None Sample.legacy = Returns true w1
    /\ disk w1 !! "/home/u/Downloads/notes.txt"
       = Some (list_byte_of_string "hello")
    /\ find (has_cloud_id "legacy-1") (files w1)
       = Some (set_file_data (list_byte_of_string "hello")
                 "2024-05-02T09:00:00" Sample.notes_row)
    /\ download_file Sample.storage "legacy-1" "/tmp/notes.txt"
         "2024-05-04T09:00:00" None (with_disk ∅ w1) = Returns true w3
    /\ disk w3 !! "/tmp/notes.txt" = Some (list_byte_of_string "hello").
Proof.
  apply (download_file_backfill_persists Sample.storage "legacy-1"
           "/home/u/Downloads/notes.txt" "2024-05-02T09:00:00" Sample.legacy
           Sample.notes_row "/home/u/notes.txt" (list_byte_of_string "hello")
           ∅ "/tmp/notes.txt" "2024-05-04T09:00:00").
  - vm_compute. reflexivity.
  - reflexivity.
  - reflexivity.
  - discriminate.
  - vm_compute. reflexivity.
  - vm_compute. reflexivity.
Defined.

Lemma download_file_unrecoverable_witness :
  download_file Sample.storage "legacy-1" "/home/u/Downloads/notes.txt"
    "2024-05-02T09:00:00" None Sample.orphaned
  = Raises (Exception "This entry has no stored file data and the original path no longer exists. Re-upload the file to store it in the vault.")
      Sample.orphaned.
Proof.
  apply (download_file_unrecoverable Sample.storage "legacy-1"
           "/home/u/Downloads/notes.txt" "2024-05-02T09:00:00" None
           Sample.orphaned Sample.notes_row).
  - vm_compute. reflexivity.
  - reflexivity.
  - intros p _. vm_compute. reflexivity.
Defined.

Lemma download_file_blob_frame_witness :
  files (final_world (download_file Sample.storage Sample.uuid Sample.downloads
                        "2024-05-02T09:00:00" (Some 3%nat) Sample.vault))
  = files Sample.vault
  /\ sqlite_sequence
       (final_world (download_file Sample.storage Sample.uuid Sample.downloads
                       "2024-05-02T09:00:00" (Some 3%nat) Sample.vault))
     = sqlite_sequence Sample.vault.
Proof.
  apply (download_file_blob_frame Sample.storage Sample.uuid Sample.downloads
           "2024-05-02T09:00:00" (Some 3%nat) Sample.vault
           Sample.digits_row Sample.digits).
  - vm_compute. reflexivity.
  - vm_compute. reflexivity.
Defined.

Lemma download_file_writes_in_place_witness :
  exists w',
    disk w' !! Sample.downloads = Some (accepted (Some 3%nat) Sample.digits)
    /\ (length (accepted (Some 3%nat) Sample.digits) = length Sample.digits ->
        download_file Sample.storage Sample.uuid Sample.downloads
          "2024-05-02T09:00:00" (Some 3%nat) Sample.vault = Returns true w')
    /\ ((length (accepted (Some 3%nat) Sample.digits) < length Sample.digits)%nat ->
        download_file Sample.storage Sample.uuid Sample.downloads
          "2024-05-02T09:00:00" (Some 3%nat) Sample.vault
        = Raises (OSError "ENOSPC") w'
        /\ files w' = files Sample.vault).
Proof.
  apply (download_file_writes_in_place Sample.storage Sample.uuid
           Sample.downloads "2024-05-02T09:00:00" (Some 3%nat) Sample.vault
           Sample.digits_row Sample.digits).
  - vm_compute. reflexivity.
  - vm_compute. reflexivity.
Defined.

Lemma load_config_defaults_witness :
  _load_config (db_path Sample.storage) None Sample.home
  = Returns default_config
      (with_disk (<[config_path (db_path Sample.storage)
                    := json_dump (PDict default_config)]> (disk Sample.home))
         Sample.home)
  /\ exists cfg,
       _load_config (db_path Sample.storage) None Sample.configured
       = Returns cfg Sample.configured
       /\ cfg !! "timeout" = Some (PInt 5)
       /\ cfg !! "api_key" = Some (PStr "your-api-key-here").
Proof.
  split.
  - apply (proj1 (load_config_defaults (db_path Sample.storage) Sample.home)).
    vm_compute. reflexivity.
  - destruct (proj1 (proj2 (load_config_defaults (db_path Sample.storage)
                              Sample.configured))
                Sample.settings {[ "timeout" := PInt 5 ]} None)
      as (cfg & Hload & Hfile & Hdefault).
    + vm_compute. reflexivity.
    + vm_compute. reflexivity.
    + exists cfg. split; [exact Hload|]. split.
      * apply Hfile. vm_compute. reflexivity.
      * rewrite Hdefault; vm_compute; reflexivity.
Defined.

Lemma get_local_files_all_sorted_witness :
  exists rows,
    get_local_files Sample.storage Sample.vault = Returns rows Sample.vault
    /\ rows ≡ₚ files Sample.vault
    /\ StronglySorted upload_date_desc rows.
Proof.
  destruct (get_local_files_all_sorted Sample.storage Sample.vault)
    as (rows & Hlist & Hall & Hsorted & _).
  exists rows. split; [exact Hlist|]. split; [exact Hall | exact Hsorted].
Defined.

Lemma remove_local_file_always_returns_witness :
  exists w1,
    remove_local_file Sample.storage 1 Sample.vault = Returns tt w1
    /\ files w1 = []
    /\ remove_local_file Sample.storage 1 w1 = Returns tt w1.
Proof.
  destruct (remove_local_file_always_returns Sample.storage 1 Sample.vault)
    as (w1 & rows & Hrm & _ & Hfiles & _ & _ & Hagain & _).
  exists w1. split; [exact Hrm|]. split; [|exact Hagain].
  rewrite Hfiles. vm_compute. reflexivity.
Defined.

(** ** Where the code departs from the specification *)

(** C5, as stated, fails: no row of the sample vault has the id 7, and
    [remove_local_file] on 7 returns without raising; so does a second
    [remove_local_file] on 1, the id of the row the first one deleted. *)
Lemma remove_local_file_unknown_id_returns :
  find (has_id 7) (files Sample.vault) = None
  /\ remove_local_file Sample.storage 7 Sample.vault = Returns tt Sample.vault
  /\ remove_local_file Sample.storage 1
       (final_world (remove_local_file Sample.storage 1 Sample.vault))
     = Returns tt (final_world (remove_local_file Sample.storage 1 Sample.vault)).
Proof. repeat split; vm_compute; reflexivity. Qed.

(** C8, as stated, fails: when the device takes three of the ten bytes, the
    fetch raises and leaves a three-byte file where there was none. *)
Lemma download_file_leaves_truncated_file :
  disk Sample.vault !! Sample.downloads = None
  /\ exists w',
       download_file Sample.storage Sample.uuid Sample.downloads
         "2024-05-02T09:00:00" (Some 3%nat) Sample.vault
       = Raises (OSError "ENOSPC") w'
       /\ disk w' !! Sample.downloads = Some (list_byte_of_string "123")
       /\ list_byte_of_string "123" <> Sample.digits.
Proof.
  split; [vm_compute; reflexivity|].
  eexists. split; [vm_compute; reflexivity|].
  split; [vm_compute; reflexivity | discriminate].
Qed.

(** * Further properties of the vault *)

Section More.
Context `{Platform}.

(** ** [_get_file_hash] *)

(** X1: [_get_file_hash] returns the MD5 hex digest of the whole content of the
    file, whatever its length (the reads of 4096 bytes lose and repeat
    nothing), and leaves the world as it is; on a path that names no file
    opening fails. *)
Theorem get_file_hash_whole_file p w :
  (forall data, disk w !! p = Some data ->
                _get_file_hash p w = Returns (MD5.hexdigest data) w)
  /\ (disk w !! p = None -> _get_file_hash p w = Raises (OSError "ENOENT") w).
Proof.
  split.
  - intros data Hp. now apply get_file_hash_returns.
  - apply get_file_hash_raises.
Qed.

(** ** [upload_file] *)

(** The three ways an upload ends. *)
Lemma upload_file_cases self p name u t1 t2 w :
  (disk w !! p = None
   /\ upload_file self p name u t1 t2 w
      = Raises (Exception "File does not exist") w)
  \/ (exists data r,
        disk w !! p = Some data /\ r ∈ files w
        /\ file_hash r = Some (MD5.hexdigest data)
        /\ upload_file self p name u t1 t2 w
           = Raises (Exception "File already exists with same content") w)
  \/ (exists data ret r,
        disk w !! p = Some data
        /\ (forall r0, r0 ∈ files w -> file_hash r0 <> Some (MD5.hexdigest data))
        /\ upload_file self p name u t1 t2 w
           = Returns ret
               {| disk := disk w; files := (files w ++ [r])%list;
                  sqlite_sequence
                  := Z.max (sqlite_sequence w) (max_rowid (files w)) + 1 |}
        /\ id r = Z.max (sqlite_sequence w) (max_rowid (files w)) + 1
        /\ cloud_id r = Some u /\ ret.1 = u /\ is_synced r = Some 0).
Proof.
  destruct (disk w !! p) as [data|] eqn:Hp.
  - destruct (find (has_file_hash (MD5.hexdigest data)) (files w)) as [r|] eqn:Hr.
    + right. left. exists data, r. split; [done|].
      destruct (find_some _ _ Hr) as [Hin Hh].
      split; [now apply list_elem_of_In|].
      split; [now apply has_file_hash_true|].
      now apply (upload_file_existing _ _ _ _ _ _ _ data r).
    + right. right. eexists data, _, _. split; [done|].
      split; [now apply find_has_file_hash_None|].
      split; [rewrite (upload_file_fresh _ _ _ _ _ _ _ _ Hp Hr); reflexivity|].
      done.
  - left. split; [done|]. now apply upload_file_missing.
Qed.


End More.

(** X3: in local-only mode ([LOCAL_ONLY] is set) an upload does not depend on
    the configuration or on the server: on two platforms that agree on
    [Path(p).name] and on [mimetypes.guess_type], with any two
    configurations, [upload_file] ends the same way; the row it stores has the
    generated uuid as its [cloud_id] and [is_synced] 0. *)
Theorem upload_file_local_only (P1 P2 : Platform) self1 self2 p name u t1 t2 w :
  @Path_name P1 = @Path_name P2 ->
  @guess_type P1 = @guess_type P2 ->
  @upload_file P1 self1 p name u t1 t2 w = @upload_file P2 self2 p name u t1 t2 w
  /\ (forall ret w',
        @upload_file P1 self1 p name u t1 t2 w = Returns ret w' ->
        ret.1 = u
        /\ exists r, files w' = (files w ++ [r])%list
                     /\ cloud_id r = Some u /\ is_synced r = Some 0).
Proof.
  intros Hname Hmime. split.
  - destruct (disk w !! p) as [data|] eqn:Hp.
    + destruct (find (has_file_hash (MD5.hexdigest data)) (files w)) as [r|] eqn:Hr.
      * rewrite (@upload_file_existing P1 _ _ _ _ _ _ _ _ _ Hp Hr).
        now rewrite (@upload_file_existing P2 _ _ _ _ _ _ _ _ _ Hp Hr).
      * rewrite (@upload_file_fresh P1 _ _ _ _ _ _ _ _ Hp Hr).
        rewrite (@upload_file_fresh P2 _ _ _ _ _ _ _ _ Hp Hr).
        now rewrite Hname, Hmime.
    + rewrite (@upload_file_missing P1 _ _ _ _ _ _ _ Hp).
      now rewrite (@upload_file_missing P2 _ _ _ _ _ _ _ Hp).
  - intros ret w' Hup.
    destruct (@upload_file_cases P1 self1 p name u t1 t2 w)
      as [[_ Hc]|[(data & r & _ & _ & _ & Hc)|(data & ret' & r & _ & _ & Hc & _ & Hid & Hret & Hs)]];
      rewrite Hc in Hup; try discriminate.
    injection Hup as <- <-. split; [done|]. now exists r.
Qed.

Section Histories.
Context `{Platform}.

(** ** Row ids *)

Lemma rowids_ok_upload self p name u t1 t2 w :
  rowids_ok w ->
  rowids_ok (final_world (upload_file self p name u t1 t2 w))
  /\ sqlite_sequence w
     <= sqlite_sequence (final_world (upload_file self p name u t1 t2 w)).
Proof.
  intros [Hnd Hle].
  destruct (upload_file_cases self p name u t1 t2 w)
    as [[_ ->]|[(data & r & _ & _ & _ & ->)
               |(data & ret & r & _ & _ & -> & Hid & _)]]; simpl;
    [done..|].
  split; [|lia]. split; simpl.
  - rewrite fmap_app. simpl. apply NoDup_app. split; [done|].
    split; [|apply NoDup_singleton].
    intros i (r0 & -> & Hr0)%list_elem_of_fmap Hi%list_elem_of_singleton.
    rewrite Forall_forall in Hle. specialize (Hle r0 Hr0). lia.
  - apply Forall_app. split.
    + eapply Forall_impl; [exact Hle|]. simpl. intros r0 Hr0. lia.
    + apply Forall_singleton. lia.
Qed.

Lemma rowids_ok_download self c dst now room w :
  rowids_ok w ->
  rowids_ok (final_world (download_file self c dst now room w))
  /\ sqlite_sequence (final_world (download_file self c dst now room w))
     = sqlite_sequence w.
Proof.
  intros [Hnd Hle].
  destruct (find (has_cloud_id c) (files w)) as [r|] eqn:Hf.
  - destruct (fetch_source w r) as [content|] eqn:Hsrc.
    + destruct (file_data r) as [blob|] eqn:Hb.
      * rewrite (download_file_blob _ _ _ _ _ _ _ _ Hf Hb). simpl.
        now destruct (length (accepted room blob) <? length blob)%nat.
      * rewrite (download_file_backfill _ _ _ _ _ _ _ _ Hf Hb Hsrc). simpl.
        destruct (length (accepted room content) <? length content)%nat; [done|].
        split; [|done]. split; simpl.
        -- rewrite <- list_fmap_compose.
           erewrite list_fmap_ext; [exact Hnd|].
           intros i r0 _. simpl. now destruct (has_cloud_id c r0).
        -- apply Forall_fmap. eapply Forall_impl; [exact Hle|].
           intros r0 Hr0. simpl. now destruct (has_cloud_id c r0).
    + now rewrite (download_file_no_source _ _ _ _ _ _ _ Hf Hsrc).
  - now rewrite (download_file_not_found _ _ _ _ _ _ Hf).
Qed.

Lemma rowids_ok_remove self i w :
  rowids_ok w -> rowids_ok (final_world (remove_local_file self i w)).
Proof.
  intros [Hnd Hle]. rewrite remove_local_file_eq. split; simpl.
  - clear Hle. induction (files w) as [|x l IH]; [done|].
    simpl in Hnd. apply NoDup_cons in Hnd as [Hx Hnd].
    rewrite filter_cons. destruct (decide (id x <> i)); [|now apply IH].
    simpl. apply NoDup_cons. split; [|now apply IH].
    intros (r0 & Hid & [_ Hr0]%list_elem_of_filter)%list_elem_of_fmap.
    apply Hx, list_elem_of_fmap. eauto.
  - rewrite Forall_forall in *. intros r0 [_ Hr0]%list_elem_of_filter. auto.
Qed.

Lemma rowids_ok_after_events self w es :
  rowids_ok w ->
  rowids_ok (after_events self w es)
  /\ sqlite_sequence w <= sqlite_sequence (after_events self w es).
Proof.
  unfold after_events. revert w.
  induction es as [|e es IH]; intros w Hok; simpl; [split; [done|lia]|].
  assert (rowids_ok (after_event self w e)
          /\ sqlite_sequence w <= sqlite_sequence (after_event self w e))
    as [Hok' Hle].
  { destruct e as [p name u t1 t2|c dst now room| |i|d]; cbn [after_event].
    - now apply rowids_ok_upload.
    - destruct (rowids_ok_download self c dst now room w Hok) as [? ->].
      split; [done|lia].
    - split; [done|]. simpl. lia.
    - split; [now apply rowids_ok_remove|]. rewrite remove_local_file_eq.
      simpl. lia.
    - split; [done|]. simpl. lia. }
  destruct (IH _ Hok') as [? ?]. split; [done|lia].
Qed.

(** X4: the ids of the rows are distinct after any history of uploads,
    fetches, listings, deletions and disk changes on a database that starts
    with an empty table. *)
Theorem rowids_distinct self d es :
  NoDup (id <$> files (after_events self (new_vault d) es)).
Proof.
  apply (rowids_ok_after_events self (new_vault d) es).
  split; simpl; [apply NoDup_nil_2 | apply Forall_nil_2].
Qed.

(** X5: an id is never handed out twice. Whatever happened since a row [r]
    was in the table, also the deletion of [r], the row a later upload adds
    has a larger id. *)
Theorem rowid_never_reused self w r es p name u t1 t2 ret w' r' :
  rowids_ok w ->
  r ∈ files w ->
  upload_file self p name u t1 t2 (after_events self w es) = Returns ret w' ->
  files w' = (files (after_events self w es) ++ [r'])%list ->
  id r < id r'.
Proof.
  intros Hok Hr Hup Hfiles.
  destruct (rowids_ok_after_events self w es Hok) as [_ Hseq].
  destruct Hok as [_ Hle]. rewrite Forall_forall in Hle. specialize (Hle r Hr).
  destruct (upload_file_cases self p name u t1 t2 (after_events self w es))
    as [[_ Hc]|[(data & r0 & _ & _ & _ & Hc)
               |(data & ret0 & r0 & _ & _ & Hc & Hid & _)]];
    rewrite Hc in Hup; try discriminate.
  injection Hup as <- <-. simpl in Hfiles.
  apply app_inj_tail in Hfiles as [_ ->]. lia.
Qed.

(** ** Content hashes *)

(** X6: no two rows carry the same [file_hash] after any history on a database
    that starts with an empty table. *)
Theorem hashes_distinct self d es :
  hashes_unique (files (after_events self (new_vault d) es)).
Proof. apply after_events_hashes_unique. simpl. apply hashes_unique_nil. Qed.

(** ** Rows that hold a blob *)

(** X7: the row a [cloud_id] finds, once it holds a blob, is never changed:
    after any history in which it is not deleted, the same id finds the same
    row, every column as it was. *)
Theorem blob_row_never_changes self w es c r blob :
  find (has_cloud_id c) (files w) = Some r ->
  file_data r = Some blob ->
  Remove (id r) ∉ es ->
  find (has_cloud_id c) (files (after_events self w es)) = Some r.
Proof. apply after_events_keeps_row. Qed.

End Histories.

Section Fetching.
Context `{Platform}.

(** ** [download_file] *)

(** The five ways a fetch ends. *)
Lemma download_file_cases self c dst now room w :
  (find (has_cloud_id c) (files w) = None
   /\ download_file self c dst now room w
      = Raises (Exception "File record not found") w)
  \/ (exists r,
        find (has_cloud_id c) (files w) = Some r /\ fetch_source w r = None
        /\ download_file self c dst now room w
           = Raises (Exception "This entry has no stored file data and the original path no longer exists. Re-upload the file to store it in the vault.") w)
  \/ (exists r content,
        find (has_cloud_id c) (files w) = Some r
        /\ fetch_source w r = Some content
        /\ (length (accepted room content) < length content)%nat
        /\ download_file self c dst now room w
           = Raises (OSError "ENOSPC")
               (with_disk (<[dst := accepted room content]> (disk w)) w))
  \/ (exists r blob,
        find (has_cloud_id c) (files w) = Some r /\ file_data r = Some blob
        /\ accepted room blob = blob
        /\ download_file self c dst now room w
           = Returns true (with_disk (<[dst := blob]> (disk w)) w))
  \/ (exists r data,
        find (has_cloud_id c) (files w) = Some r /\ file_data r = None
        /\ fetch_source w r = Some data /\ accepted room data = data
        /\ download_file self c dst now room w
           = Returns true
               {| disk := <[dst := data]> (disk w);
                  files := backfilled c data now <$> files w;
                  sqlite_sequence := sqlite_sequence w |}).
Proof.
  assert (forall k (l : bytes), (length (take k l) <? length l)%nat = false ->
                                take k l = l) as Htake.
  { intros k l Hk. apply Nat.ltb_ge in Hk. rewrite length_take in Hk.
    apply take_ge. lia. }
  assert (forall l, (length (accepted room l) <? length l)%nat = false ->
                    accepted room l = l) as Hall.
  { intros l. destruct room as [k|]; simpl; [apply Htake | done]. }
  destruct (find (has_cloud_id c) (files w)) as [r|] eqn:Hf.
  - destruct (fetch_source w r) as [content|] eqn:Hsrc.
    + destruct (length (accepted room content) <? length content)%nat eqn:Hlt.
      * right. right. left. exists r, content.
        split; [done|]. split; [done|]. split; [now apply Nat.ltb_lt|].
        destruct (file_data r) as [blob|] eqn:Hb.
        -- assert (blob = content) as ->.
           { unfold fetch_source in Hsrc. rewrite Hb in Hsrc. now injection Hsrc. }
           rewrite (download_file_blob _ _ _ _ _ _ _ _ Hf Hb). simpl.
           now rewrite Hlt.
        -- rewrite (download_file_backfill _ _ _ _ _ _ _ _ Hf Hb Hsrc). simpl.
           now rewrite Hlt.
      * pose proof (Hall _ Hlt) as Hacc.
        destruct (file_data r) as [blob|] eqn:Hb.
        -- assert (blob = content) as ->.
           { unfold fetch_source in Hsrc. rewrite Hb in Hsrc. now injection Hsrc. }
           right. right. right. left. exists r, content.
           split; [done|]. split; [done|]. split; [done|].
           rewrite (download_file_blob _ _ _ _ _ _ _ _ Hf Hb). simpl.
           now rewrite Hlt, Hacc.
        -- right. right. right. right. exists r, content.
           split; [done|]. split; [done|]. split; [done|]. split; [done|].
           rewrite (download_file_backfill _ _ _ _ _ _ _ _ Hf Hb Hsrc). simpl.
           now rewrite Hlt, Hacc.
    + right. left. exists r. split; [done|]. split; [done|].
      now apply (download_file_no_source _ _ _ _ _ _ r).
  - left. split; [done|]. now apply download_file_not_found.
Qed.

(** X8: [download_file] writes to no path but [local_path], never adds,
    removes or renumbers a row and never touches [sqlite_sequence]; when it
    raises, the table is the one from before the call. *)
Theorem download_file_frame self c dst now room w :
  (forall p, p <> dst ->
             disk (final_world (download_file self c dst now room w)) !! p
             = disk w !! p)
  /\ id <$> files (final_world (download_file self c dst now room w))
     = id <$> files w
  /\ sqlite_sequence (final_world (download_file self c dst now room w))
     = sqlite_sequence w
  /\ (forall e w', download_file self c dst now room w = Raises e w' ->
                   files w' = files w).
Proof.
  destruct (download_file_cases self c dst now room w)
    as [[_ ->]|[(r & _ & _ & ->)|[(r & content & _ & _ & _ & ->)
       |[(r & blob & _ & _ & _ & ->)|(r & data & _ & _ & _ & _ & ->)]]]]; simpl.
  - split; [done|]. split; [done|]. split; [done|]. now intros e w' [= _ <-].
  - split; [done|]. split; [done|]. split; [done|]. now intros e w' [= _ <-].
  - split; [intros p Hp; now rewrite lookup_insert_ne|].
    split; [done|]. split; [done|]. now intros e w' [= _ <-].
  - split; [intros p Hp; now rewrite lookup_insert_ne|].
    split; [done|]. split; [done|]. intros e w' [=].
  - split; [intros p Hp; now rewrite lookup_insert_ne|].
    split; [|split; [done|intros e w' [=]]].
    rewrite <- list_fmap_compose. apply list_fmap_ext.
    intros i r0 _. simpl. unfold backfilled. now destruct (has_cloud_id c r0).
Qed.

(** X9: a fetch on a [cloud_id] that no row carries (a row with a NULL
    [cloud_id] carries none) raises "File record not found" and changes
    nothing, on disk or in the table. *)
Theorem download_file_unknown_id self c dst now room w :
  (forall r, r ∈ files w -> cloud_id r <> Some c) ->
  download_file self c dst now room w
  = Raises (Exception "File record not found") w.
Proof.
  intros Hnone. apply download_file_not_found.
  destruct (find (has_cloud_id c) (files w)) as [r|] eqn:Hf; [|done].
  apply find_has_cloud_id_Some in Hf as [Hr Hc]. now destruct (Hnone r Hr).
Qed.

(** X10: the backfill stores the bytes it read in every row that carries the
    [cloud_id], not only in the row the lookup found, and sets their
    [last_sync]; the rows with another [cloud_id] stay as they are, and the
    order of the rows is kept. *)
Theorem download_file_backfills_every_row self c dst now w r data :
  find (has_cloud_id c) (files w) = Some r ->
  file_data r = None ->
  fetch_source w r = Some data ->
  exists w',
    download_file self c dst now None w = Returns true w'
    /\ length (files w') = length (files w)
    /\ (forall i r0,
          files w !! i = Some r0 ->
          cloud_id r0 = Some c ->
          files w' !! i = Some (set_file_data data now r0))
    /\ (forall i r0,
          files w !! i = Some r0 ->
          cloud_id r0 <> Some c ->
          files w' !! i = Some r0).
Proof.
  intros Hf Hb Hsrc.
  rewrite (download_file_backfill _ _ _ _ _ _ _ _ Hf Hb Hsrc). simpl.
  rewrite Nat.ltb_irrefl. eexists. split; [done|]. simpl.
  split; [now rewrite length_fmap|]. split.
  - intros i r0 Hi Hc. rewrite list_lookup_fmap, Hi. simpl.
    apply has_cloud_id_true in Hc. now rewrite Hc.
  - intros i r0 Hi Hc. rewrite list_lookup_fmap, Hi. simpl.
    destruct (has_cloud_id c r0) eqn:Hc'; [|done].
    now apply has_cloud_id_true in Hc'.
Qed.

(** ** [remove_local_file] *)

(** X11: with distinct ids, deleting the id of a stored row takes exactly that
    row out of the table; the rows before and after it keep their order, and
    the disk and [sqlite_sequence] are not touched. *)
Theorem remove_local_file_exactly_one self w l1 r l2 :
  NoDup (id <$> files w) ->
  files w = (l1 ++ r :: l2)%list ->
  remove_local_file self (id r) w
  = Returns tt {| disk := disk w; files := (l1 ++ l2)%list;
                  sqlite_sequence := sqlite_sequence w |}.
Proof.
  intros Hnd Hfiles. rewrite remove_local_file_eq. f_equal. f_equal.
  rewrite Hfiles in *. clear Hfiles.
  rewrite fmap_app, fmap_cons in Hnd.
  apply NoDup_app in Hnd as (_ & Hl1 & Hnd).
  apply NoDup_cons in Hnd as [Hl2 _].
  assert (forall l : list file_row,
            id r ∉ id <$> l -> filter (fun r0 => id r0 <> id r) l = l) as Hkeep.
  { induction l as [|x l IH]; [done|]. intros Hx. rewrite fmap_cons in Hx.
    apply not_elem_of_cons in Hx as [Hx Hl].
    rewrite filter_cons_True by congruence. f_equal. now apply IH. }
  rewrite filter_app, filter_cons_False by (intros Hne; now apply Hne).
  rewrite !Hkeep; [done|done|].
  intros Hin. apply (Hl1 (id r)); [done|left].
Qed.

End Fetching.

Section Settings.
Context `{Platform}.

(** ** [_load_config] *)

(** The three ways [_load_config] goes when the defaults can be written in
    full. *)
Lemma load_config_cases db w :
  let written :=
    with_disk (<[config_path db := json_dump (PDict default_config)]> (disk w)) w in
  (exists text d,
     disk w !! config_path db = Some text /\ json_load text = Some (PDict d)
     /\ forall room,
          _load_config db room w = Returns (d ∪ default_config) w)
  \/ _load_config db None w = Returns default_config written.
Proof.
  intros written. destruct (disk w !! config_path db) as [text|] eqn:Htext.
  - destruct (json_load text) as [[| | | | |d]|] eqn:Hl;
      try (right; unfold _load_config, mbind, py_bind, path_exists;
           rewrite Htext; rewrite bool_decide_eq_true_2 by eauto;
           unfold read_bytes; rewrite Htext, Hl; simpl;
           rewrite write_bytes_eq; simpl; now rewrite Nat.ltb_irrefl).
    left. exists text, d. split; [done|]. split; [done|]. intros room.
    unfold _load_config, mbind, py_bind, path_exists.
    rewrite Htext. rewrite bool_decide_eq_true_2 by eauto.
    unfold read_bytes. now rewrite Htext, Hl.
  - right. unfold _load_config, mbind, py_bind, path_exists.
    rewrite Htext. rewrite bool_decide_eq_false_2 by (now intros [x Hx]).
    simpl. rewrite write_bytes_eq. simpl. now rewrite Nat.ltb_irrefl.
Qed.

(** X12: whatever the settings file holds, the configuration [_load_config]
    returns has every key of the defaults, so that no later
    [self.config[...]] on one of the seven keys misses. *)
Theorem load_config_has_default_keys db room w cfg w' k :
  _load_config db room w = Returns cfg w' ->
  is_Some (default_config !! k) ->
  is_Some (cfg !! k).
Proof.
  intros Hload Hk.
  assert (forall w0 : world,
            (write_bytes (config_path db) (json_dump (PDict default_config)) room;;
             mret default_config) w0 = Returns cfg w' ->
            cfg = default_config) as Hdefault.
  { intros w0. unfold mbind, py_bind. rewrite write_bytes_eq. simpl.
    destruct (_ <? _)%nat; [discriminate|]. now intros [= <- _]. }
  unfold _load_config, mbind at 1 2, py_bind at 1 2, path_exists in Hload.
  destruct (disk w !! config_path db) as [text|] eqn:Htext.
  - rewrite bool_decide_eq_true_2 in Hload by eauto.
    unfold read_bytes, mbind at 1, py_bind at 1 in Hload. rewrite Htext in Hload.
    destruct (json_load text) as [[| | | | |d]|]; simpl in Hload;
      try (now rewrite (Hdefault _ Hload)).
    injection Hload as <- _. rewrite lookup_union.
    destruct (d !! k), Hk as [v ->]; simpl; eauto.
  - rewrite bool_decide_eq_false_2 in Hload by (now intros [x Hx]).
    simpl in Hload. now rewrite (Hdefault _ Hload).
Qed.

(** X13: loading is stable. On a platform where [json.load] reads back the
    defaults that [json.dump] wrote, a second [_load_config] returns the
    configuration the first one returned and writes nothing. *)
Theorem load_config_twice db w cfg w1 room :
  json_load (json_dump (PDict default_config)) = Some (PDict default_config) ->
  _load_config db None w = Returns cfg w1 ->
  _load_config db room w1 = Returns cfg w1.
Proof.
  intros Hjson Hload.
  destruct (load_config_cases db w) as [(text & d & Htext & Hl & Hd)|Hw].
  - rewrite Hd in Hload. injection Hload as <- <-. apply Hd.
  - rewrite Hw in Hload. injection Hload as <- <-.
    unfold _load_config, mbind, py_bind, path_exists. simpl.
    rewrite lookup_insert_eq. rewrite bool_decide_eq_true_2 by eauto.
    unfold read_bytes. simpl. rewrite lookup_insert_eq, Hjson. simpl.
    now rewrite (idemp_L (∪)).
Qed.

End Settings.

(** ** [_ensure_database] *)

Section Schema.
Context {R : Type}.
Implicit Types (t : table R) (db : option (table R)).

Lemma same_name_refl a : same_name a a = true.
Proof. unfold same_name. apply String.eqb_refl. Qed.

Lemma has_column_add_other name c t :
  has_column name t = true -> has_column name (add_column_or_pass c t) = true.
Proof.
  intros Hname. unfold add_column_or_pass, alter_table_add_column.
  destruct (has_column c.1 t); simpl; [done|].
  unfold has_column in *. simpl. rewrite existsb_app, Hname. done.
Qed.

Lemma has_column_add_same c t :
  has_column c.1 (add_column_or_pass c t) = true.
Proof.
  unfold add_column_or_pass, alter_table_add_column.
  destruct (has_column c.1 t) eqn:Hc; simpl; [done|].
  unfold has_column. simpl. rewrite existsb_app. simpl.
  rewrite same_name_refl. now rewrite orb_true_r.
Qed.

Lemma add_column_or_pass_id c t :
  has_column c.1 t = true -> add_column_or_pass c t = t.
Proof.
  intros Hc. unfold add_column_or_pass, alter_table_add_column. now rewrite Hc.
Qed.

Lemma add_column_or_pass_grows c t :
  exists added,
    columns (add_column_or_pass c t) = (columns t ++ added)%list
    /\ stored (add_column_or_pass c t) = stored t
    /\ (added = [] \/ added = [c]).
Proof.
  unfold add_column_or_pass, alter_table_add_column.
  destruct (has_column c.1 t); simpl.
  - exists []. rewrite app_nil_r. auto.
  - exists [c]. auto.
Qed.

(** X14: [_ensure_database] only adds. On a table that is there it keeps the
    columns, with their declarations and in their order, and the rows; what
    it appends are columns among [file_hash], [local_path] and [file_data]. *)
Theorem ensure_database_only_adds t :
  exists added,
    columns (_ensure_database (Some t)) = (columns t ++ added)%list
    /\ stored (_ensure_database (Some t)) = stored t
    /\ Forall (fun c => c ∈ [("file_hash", "TEXT"); ("local_path", "TEXT");
                             ("file_data", "BLOB")]) added.
Proof.
  unfold _ensure_database. simpl.
  destruct (add_column_or_pass_grows ("file_hash", "TEXT") t)
    as (a1 & Hc1 & Hs1 & Ha1).
  destruct (add_column_or_pass_grows ("local_path", "TEXT")
              (add_column_or_pass ("file_hash", "TEXT") t))
    as (a2 & Hc2 & Hs2 & Ha2).
  destruct (add_column_or_pass_grows ("file_data", "BLOB")
              (add_column_or_pass ("local_path", "TEXT")
                 (add_column_or_pass ("file_hash", "TEXT") t)))
    as (a3 & Hc3 & Hs3 & Ha3).
  exists (a1 ++ a2 ++ a3)%list. split; [|split].
  - rewrite Hc3, Hc2, Hc1. now rewrite <- !app_assoc.
  - now rewrite Hs3, Hs2, Hs1.
  - rewrite !Forall_app.
    destruct Ha1 as [-> | ->], Ha2 as [-> | ->], Ha3 as [-> | ->];
      repeat split; repeat constructor; set_solver.
Qed.

Lemma ensure_database_columns_aux db :
  has_column "file_hash" (_ensure_database db) = true
  /\ has_column "local_path" (_ensure_database db) = true
  /\ has_column "file_data" (_ensure_database db) = true.
Proof.
  split; [|split].
  - unfold _ensure_database. do 2 apply has_column_add_other.
    apply (has_column_add_same ("file_hash", "TEXT")).
  - unfold _ensure_database. apply has_column_add_other.
    apply (has_column_add_same ("local_path", "TEXT")).
  - unfold _ensure_database. apply (has_column_add_same ("file_data", "BLOB")).
Qed.

(** X15: after [_ensure_database] the table has the columns [file_hash],
    [local_path] and [file_data], whatever was there before; a table it
    creates has [id] followed by exactly the columns that [upload_file] names
    in its [INSERT], and no row. *)
Theorem ensure_database_columns db :
  has_column "file_hash" (_ensure_database db) = true
  /\ has_column "local_path" (_ensure_database db) = true
  /\ has_column "file_data" (_ensure_database db) = true
  /\ (db = None ->
      fst <$> columns (_ensure_database db) = "id" :: inserted_columns
      /\ stored (_ensure_database db) = []).
Proof.
  destruct (ensure_database_columns_aux db) as (Hh & Hp & Hd).
  repeat (split; [assumption|]). intros ->. split; reflexivity.
Qed.

(** X16: running [_ensure_database] again changes nothing: on the table it
    left, every [ALTER TABLE] fails and is passed over. *)
Theorem ensure_database_idempotent db :
  _ensure_database (Some (_ensure_database db)) = _ensure_database db.
Proof.
  destruct (ensure_database_columns_aux db) as (Hh & Hp & Hd).
  unfold _ensure_database at 1. simpl.
  rewrite (add_column_or_pass_id ("file_hash", "TEXT")) by exact Hh.
  rewrite (add_column_or_pass_id ("local_path", "TEXT")) by exact Hp.
  now rewrite (add_column_or_pass_id ("file_data", "BLOB")) by exact Hd.
Qed.

End Schema.

(** ** Requests to the server *)

Section Requesting.
Context `{Web}.

Lemma make_request_inv self method endpoint kw resp :
  _make_request self method endpoint kw = inr resp ->
  exists base url api_key timeout,
    config self !! "cloud_server_url" = Some base
    /\ urljoin base endpoint = Some url
    /\ config self !! "api_key" = Some api_key
    /\ config self !! "timeout" = Some timeout
    /\ requests_request
         {| req_method := method; req_url := url;
            req_headers :=
              default ∅ (kw_headers kw)
              ∪ <["Authorization" := "Bearer " ++ py_str api_key]>
                  {[ "User-Agent" := "CloudFileManager/1.0" ]};
            req_timeout := timeout; req_others := kw_others kw |}
       = Some resp
    /\ ((400 <=? status_code resp) && (status_code resp <? 600))%Z = false.
Proof.
  unfold _make_request, mbind, failure_bind, getitem, raise_for_status.
  destruct (config self !! "cloud_server_url") as [base|] eqn:Hbase;
    [|discriminate].
  destruct (urljoin base endpoint) as [url|] eqn:Hurl; [|discriminate].
  destruct (config self !! "api_key") as [api_key|] eqn:Hkey; [|discriminate].
  destruct (config self !! "timeout") as [timeout|] eqn:Htime; [|discriminate].
  assert (forall m : gmap string string,
            match kw_headers kw with Some given => given ∪ m | None => m end
            = default ∅ (kw_headers kw) ∪ m) as ->.
  { intros m. destruct (kw_headers kw); simpl; [done|]. now rewrite (left_id_L ∅ (∪)). }
  destruct (requests_request _) as [r|] eqn:Hr; [|discriminate].
  destruct ((400 <=? status_code r) && (status_code r <? 600))%Z eqn:Hs;
    [discriminate|].
  intros [= <-]. now exists base, url, api_key, timeout.
Qed.

(** X17: an answer [_make_request] returns is the answer to a request with the
    given method, sent with the [timeout] of the configuration whatever
    timeout the caller passed, and its status is not in 400..599; unless the
    caller's own headers say otherwise, the request carries
    [Authorization: Bearer <api_key>] and the [User-Agent] of the client. *)
Theorem make_request_sends self method endpoint kw resp :
  _make_request self method endpoint kw = inr resp ->
  exists req api_key,
    requests_request req = Some resp
    /\ req_method req = method
    /\ config self !! "timeout" = Some (req_timeout req)
    /\ config self !! "api_key" = Some api_key
    /\ (default ∅ (kw_headers kw) !! "Authorization" = None ->
        req_headers req !! "Authorization" = Some ("Bearer " ++ py_str api_key))
    /\ (default ∅ (kw_headers kw) !! "User-Agent" = None ->
        req_headers req !! "User-Agent" = Some "CloudFileManager/1.0")
    /\ (status_code resp < 400 \/ 600 <= status_code resp).
Proof.
  intros (base & url & api_key & timeout & _ & _ & Hkey & Htime & Hsend & Hs)
    %make_request_inv.
  eexists _, api_key. split; [exact Hsend|]. simpl.
  split; [done|]. split; [done|]. split; [done|]. split; [|split].
  - intros Hnone. rewrite lookup_union_r by done. apply lookup_insert_eq.
  - intros Hnone. rewrite lookup_union_r by done.
    rewrite lookup_insert_ne by done. apply lookup_singleton_eq.
  - apply andb_false_iff in Hs as [Hs|Hs]; lia.
Qed.

(** X18: with the placeholder address in the configuration,
    [delete_cloud_file] returns [True] without a request: the result is the
    same with every server and every [urljoin], and the other keys of the
    configuration are not read. *)
Theorem delete_cloud_file_placeholder self cloud_id url n :
  config self !! "cloud_server_url" = Some (PStr url) ->
  index 0 "your-cloud-server.com" url = Some n ->
  delete_cloud_file self cloud_id = inr true.
Proof.
  intros Hurl Hin. unfold delete_cloud_file, mbind, failure_bind, getitem.
  rewrite Hurl. simpl. now rewrite Hin.
Qed.

(** X19: [get_cloud_files] never lets a [RequestException] out: when the
    request fails in transport or is answered with an error status, or when
    [response.json()] raises one, it returns the empty list, as it does
    without any request for the placeholder address. *)
Theorem get_cloud_files_swallows_transport_errors self :
  get_cloud_files self <> inl RequestException
  /\ (forall base endpoint,
        config self !! "cloud_server_url" = Some base ->
        py_in "your-cloud-server.com" base = inr false ->
        config self !! "list_endpoint" = Some endpoint ->
        _make_request self "GET" endpoint no_kwargs = inl RequestException ->
        get_cloud_files self = inr (PList []))
  /\ (forall url n,
        config self !! "cloud_server_url" = Some (PStr url) ->
        index 0 "your-cloud-server.com" url = Some n ->
        get_cloud_files self = inr (PList [])).
Proof.
  split; [|split].
  - unfold get_cloud_files, mbind, failure_bind, getitem.
    destruct (config self !! "cloud_server_url") as [base|]; [|done].
    destruct (py_in _ base) as [e|[|]] eqn:Hin; [|done|].
    { destruct base; simpl in Hin; try discriminate; now injection Hin as <-. }
    destruct (config self !! "list_endpoint") as [endpoint|]; [|done].
    destruct (_make_request self "GET" endpoint no_kwargs) as [[]|resp]; try done.
    destruct (json resp) as [[]|[]]; done.
  - intros base endpoint Hbase Hin Hend Hreq.
    unfold get_cloud_files, mbind, failure_bind, getitem.
    now rewrite Hbase, Hin, Hend, Hreq.
  - intros url n Hurl Hin. unfold get_cloud_files, mbind, failure_bind, getitem.
    rewrite Hurl. simpl. now rewrite Hin.
Qed.


End Requesting.

(** ** The handlers of the window *)

Section Window.
Context `{Platform} `{Web} `{Builtins}.




(** X23: the download handler never overwrites, truncates or removes a file:
    every path that names a file before the call names the same bytes after
    it, whatever is selected and however the write ends. *)
Theorem download_file_keeps_existing_files
    self downloads_dir selection utcnow room w p data :
  disk w !! p = Some data ->
  disk (CloudFileApp.download_file self downloads_dir selection utcnow room w).2
    !! p = Some data.
Proof.
  intros Hp. unfold CloudFileApp.download_file.
  destruct selection as [[|file_name values]|]; [done| |done].
  rewrite get_local_files_eq.
  destruct (CloudFileApp.selected_file file_name _) as [file|]; [|done].
  destruct (truthy (cloud_id file)); [|done]. simpl negb. cbv iota.
  set (save_path := os_path_join downloads_dir (local_name file)).
  destruct (disk w !! save_path) as [old|] eqn:Hold.
  { now rewrite bool_decide_eq_true_2 by eauto. }
  rewrite bool_decide_eq_false_2 by (now intros [x Hx]).
  assert (p <> save_path) as Hne by congruence.
  destruct (download_file_cases self (default EmptyString (cloud_id file))
              save_path utcnow room w)
    as [[_ ->]|[(r & _ & _ & ->)|[(r & content & _ & _ & _ & ->)
       |[(r & blob & _ & _ & _ & ->)|(r & d & _ & _ & _ & _ & ->)]]]]; simpl;
    try done; now rewrite lookup_insert_ne.
Qed.


(** X25: what [save_settings] wrote is what the next start loads. On a
    platform where [json.load] reads back the configuration [json.dump]
    wrote, [_load_config] after a [save_settings] that raised nothing returns
    the configuration of the storage object, in which each of the seven keys
    holds the text entered for it ([timeout]: its value), and writes nothing. *)
Theorem save_settings_round_trip
    self url key upload download list delete timeout w self' w' room :
  CloudFileApp.save_settings self url key upload download list delete timeout
    None w = (None, self', w') ->
  json_load (json_dump (PDict (config self'))) = Some (PDict (config self')) ->
  _load_config (db_path self') room w' = Returns (config self') w'
  /\ config self' !! "cloud_server_url" = Some (PStr url)
  /\ config self' !! "api_key" = Some (PStr key)
  /\ config self' !! "upload_endpoint" = Some (PStr upload)
  /\ config self' !! "download_endpoint" = Some (PStr download)
  /\ config self' !! "list_endpoint" = Some (PStr list)
  /\ config self' !! "delete_endpoint" = Some (PStr delete)
  /\ exists seconds,
       CloudFileApp.timeout_entry timeout = inr seconds
       /\ config self' !! "timeout" = Some seconds.
Proof.
  unfold CloudFileApp.save_settings.
  destruct (CloudFileApp.timeout_entry timeout) as [e|seconds]; [discriminate|].
  rewrite write_bytes_eq. simpl. rewrite Nat.ltb_irrefl.
  intros [= <- <-] Hjson. simpl in *.
  split; [|repeat split; try (now simplify_map_eq);
           exists seconds; split; [done | now simplify_map_eq]].
  unfold _load_config, mbind, py_bind, path_exists. simpl.
  rewrite lookup_insert_eq. rewrite bool_decide_eq_true_2 by eauto.
  unfold read_bytes. simpl. rewrite lookup_insert_eq, Hjson. simpl.
  f_equal. apply map_eq. intros k. rewrite lookup_union.
  destruct (default_config !! k) as [v|] eqn:Hk; [|now rewrite (right_id_L None _)].
  assert (k ∈ ["cloud_server_url"; "api_key"; "upload_endpoint";
               "download_endpoint"; "list_endpoint"; "delete_endpoint";
               "timeout"]) as Hin.
  { apply elem_of_list_to_map_2 in Hk. apply (list_elem_of_fmap_2 fst) in Hk.
    exact Hk. }
  repeat (apply elem_of_cons in Hin as [-> | Hin]; [now simplify_map_eq|]).
  inversion Hin.
Qed.

End Window.

(** ** Sample runs of the properties above *)

Lemma upload_file_local_only_witness :
  @upload_file Sample.platform Sample.storage Sample.digits_txt None
    Sample.uuid "2024-05-01T10:00:00" "2024-05-01T10:00:00.000012" Sample.home
  = @upload_file Cases.bare Server.online Sample.digits_txt None
      Sample.uuid "2024-05-01T10:00:00" "2024-05-01T10:00:00.000012" Sample.home.
Proof.
  apply (upload_file_local_only Sample.platform Cases.bare Sample.storage
           Server.online Sample.digits_txt None Sample.uuid
           "2024-05-01T10:00:00" "2024-05-01T10:00:00.000012" Sample.home);
    reflexivity.
Defined.

Lemma rowid_never_reused_witness :
  id Sample.digits_row < id Cases.digits_row'.
Proof.
  apply (rowid_never_reused Sample.storage Sample.vault Sample.digits_row
           Cases.emptied Sample.digits_txt None Cases.uuid'
           "2024-05-03T10:00:00" "2024-05-03T10:00:00.000015"
           (Cases.uuid', "digits.txt") Cases.again Cases.digits_row').
  - split; vm_compute.
    + repeat constructor; set_solver.
    + repeat constructor; discriminate.
  - vm_compute. left.
  - vm_compute. reflexivity.
  - vm_compute. reflexivity.
Defined.

Lemma blob_row_never_changes_witness :
  find (has_cloud_id Sample.uuid)
    (files (after_events Sample.storage Sample.vault Sample.history))
  = Some Sample.digits_row.
Proof.
  apply (blob_row_never_changes Sample.storage Sample.vault Sample.history
           Sample.uuid Sample.digits_row Sample.digits).
  - vm_compute. reflexivity.
  - reflexivity.
  - unfold Sample.history. rewrite !elem_of_cons, elem_of_nil.
    intros [|[|[|[|]]]]; try discriminate; done.
Defined.

Lemma download_file_unknown_id_witness :
  download_file Sample.storage Sample.uuid "/tmp/out.bin"
    "2024-05-02T09:00:00" None Sample.legacy
  = Raises (Exception "File record not found") Sample.legacy.
Proof.
  apply (download_file_unknown_id Sample.storage Sample.uuid "/tmp/out.bin"
           "2024-05-02T09:00:00" None Sample.legacy).
  intros r Hr. apply list_elem_of_singleton in Hr. rewrite Hr. discriminate.
Defined.

Lemma download_file_backfills_every_row_witness :
  exists w',
    download_file Sample.storage "legacy-1" "/tmp/notes.txt"
      "2024-05-02T09:00:00" None Cases.twins = Returns true w'
    /\ length (files w') = length (files Cases.twins)
    /\ (forall i r0,
          files Cases.twins !! i = Some r0 ->
          cloud_id r0 = Some "legacy-1" ->
          files w' !! i
          = Some (set_file_data (list_byte_of_string "hello")
                    "2024-05-02T09:00:00" r0))
    /\ (forall i r0,
          files Cases.twins !! i = Some r0 ->
          cloud_id r0 <> Some "legacy-1" ->
          files w' !! i = Some r0).
Proof.
  apply (download_file_backfills_every_row Sample.storage "legacy-1"
           "/tmp/notes.txt" "2024-05-02T09:00:00" Cases.twins
           Sample.notes_row (list_byte_of_string "hello")).
  - vm_compute. reflexivity.
  - reflexivity.
  - vm_compute. reflexivity.
Defined.

Lemma remove_local_file_exactly_one_witness :
  remove_local_file Sample.storage (id Cases.digits_row') Cases.twins
  = Returns tt {| disk := disk Cases.twins;
                  files := ([Sample.notes_row] ++ [Cases.notes_copy])%list;
                  sqlite_sequence := sqlite_sequence Cases.twins |}.
Proof.
  apply (remove_local_file_exactly_one Sample.storage Cases.twins
           [Sample.notes_row] Cases.digits_row' [Cases.notes_copy]).
  - refine (bool_decide_unpack _ _); vm_compute; exact I.
  - reflexivity.
Defined.

Lemma load_config_has_default_keys_witness :
  is_Some ((<["timeout" := PInt 5]> default_config : gmap string pyval)
             !! "api_key").
Proof.
  apply (load_config_has_default_keys (db_path Sample.storage) None
           Sample.configured (<["timeout" := PInt 5]> default_config)
           Sample.configured "api_key").
  - vm_compute. reflexivity.
  - vm_compute. eauto.
Defined.

Lemma load_config_twice_witness :
  _load_config (db_path Sample.storage) (Some 0%nat)
    (with_disk (<[config_path (db_path Sample.storage)
                  := json_dump (PDict default_config)]> (disk Sample.home))
       Sample.home)
  = Returns default_config
      (with_disk (<[config_path (db_path Sample.storage)
                    := json_dump (PDict default_config)]> (disk Sample.home))
         Sample.home).
Proof.
  apply (load_config_twice (db_path Sample.storage) Sample.home default_config
           (with_disk (<[config_path (db_path Sample.storage)
                         := json_dump (PDict default_config)]>
                         (disk Sample.home)) Sample.home) (Some 0%nat)).
  - vm_compute. reflexivity.
  - vm_compute. reflexivity.
Defined.

Lemma make_request_sends_witness :
  exists req api_key,
    requests_request req
    = Some {| status_code := 200;
              json := inr (PDict {[ "files" := PList [] ]}) |}
    /\ req_method req = "GET"
    /\ config Server.online !! "timeout" = Some (req_timeout req)
    /\ config Server.online !! "api_key" = Some api_key
    /\ (default ∅ (kw_headers no_kwargs) !! "Authorization" = None ->
        req_headers req !! "Authorization" = Some ("Bearer " ++ py_str api_key))
    /\ (default ∅ (kw_headers no_kwargs) !! "User-Agent" = None ->
        req_headers req !! "User-Agent" = Some "CloudFileManager/1.0")
    /\ (status_code {| status_code := 200;
                       json := inr (PDict {[ "files" := PList [] ]}) |} < 400
        \/ 600 <= status_code {| status_code := 200;
                                  json := inr (PDict {[ "files" := PList [] ]}) |}).
Proof.
  apply (make_request_sends Server.online "GET" (PStr "/list") no_kwargs
           {| status_code := 200;
              json := inr (PDict {[ "files" := PList [] ]}) |}).
  vm_compute. reflexivity.
Defined.

Lemma delete_cloud_file_placeholder_witness :
  delete_cloud_file Sample.storage Sample.uuid = inr true.
Proof.
  apply (delete_cloud_file_placeholder Sample.storage Sample.uuid
           "https://your-cloud-server.com/api" 8%nat).
  - reflexivity.
  - vm_compute. reflexivity.
Defined.




Lemma download_file_keeps_existing_files_witness :
  disk (CloudFileApp.download_file Sample.storage "/home/u/Downloads"
          (Some [PStr "digits.txt"]) "2024-05-02T09:00:00" (Some 3%nat)
          Sample.vault).2 !! Sample.digits_txt
  = Some Sample.digits.
Proof.
  apply (download_file_keeps_existing_files Sample.storage "/home/u/Downloads"
           (Some [PStr "digits.txt"]) "2024-05-02T09:00:00" (Some 3%nat)
           Sample.vault Sample.digits_txt Sample.digits).
  vm_compute. reflexivity.
Defined.


Lemma save_settings_round_trip_witness :
  _load_config (db_path Cases.saved.1.2) (Some 0%nat) Cases.saved.2
  = Returns (config Cases.saved.1.2) Cases.saved.2
  /\ config Cases.saved.1.2 !! "cloud_server_url"
     = Some (PStr "https://cloud.example/api")
  /\ config Cases.saved.1.2 !! "api_key" = Some (PStr "secret")
  /\ config Cases.saved.1.2 !! "upload_endpoint" = Some (PStr "/upload")
  /\ config Cases.saved.1.2 !! "download_endpoint" = Some (PStr "/download")
  /\ config Cases.saved.1.2 !! "list_endpoint" = Some (PStr "/list")
  /\ config Cases.saved.1.2 !! "delete_endpoint" = Some (PStr "/delete")
  /\ exists seconds,
       CloudFileApp.timeout_entry "45" = inr seconds
       /\ config Cases.saved.1.2 !! "timeout" = Some seconds.
Proof.
  apply (save_settings_round_trip Sample.storage "https://cloud.example/api"
           "secret" "/upload" "/download" "/list" "/delete" "45" Sample.home
           Cases.saved.1.2 Cases.saved.2 (Some 0%nat)).
  - vm_compute. reflexivity.
  - vm_compute. reflexivity.
Defined.
